(** * OTA_PRO: MLX90614 sensor driver and SD-card handler

    A shallow embedding of [components/mlx90614/mlx90614_Handler.c] and
    [components/SDCard/SDCardHandler.c], with the properties their design
    document states about them.

    Conventions.
    - A C integer is a [Z]; a conversion to [uint8_t] or [uint16_t] is
      written out ([u8], [u16]) at every assignment that performs one.
    - A C [float] is an IEEE-754 binary32 number: [spec_float] with the
      operations of [SpecFloat] at precision 24 and maximal exponent 128.
    - A C string is a [string]; the FAT volume is a finite map from full
      paths to file contents.
    - The ESP-IDF and libc calls the handlers make are modelled in
      [Module Platform]; every call is recorded in a trace. *)

From Stdlib Require Import ZArith List String Ascii Bool Lia QArith.
From Stdlib Require Import Floats.SpecFloat.
From stdpp Require Import gmap strings.

Local Open Scope Z_scope.

(** ** Machine integers *)

Definition u8 (z : Z) : Z := z mod 256.
Definition u16 (z : Z) : Z := z mod 65536.

Definition is_u8 (z : Z) : Prop := 0 <= z < 256.
Definition is_u8b (z : Z) : bool := (0 <=? z) && (z <? 256).

(** [esp_err_t] values of [esp_err.h] that the handlers meet. *)
Definition ESP_OK : Z := 0.
Definition ESP_FAIL : Z := -1.
Definition ESP_ERR_NO_MEM : Z := 0x101.
Definition ESP_ERR_INVALID_ARG : Z := 0x102.
Definition ESP_ERR_INVALID_STATE : Z := 0x103.

(** ** A [for] loop over a [uint8_t] counter

    [for (uint8_t i = start; i < bound; i++) body], the counter wrapping
    at 256 as the type does.  The loop runs at most [fuel] times. *)

Fixpoint for_u8 {S : Type} (fuel : nat) (i bound : Z) (body : Z -> S -> S) (s : S) : S :=
  match fuel with
  | O => s
  | Datatypes.S fuel' =>
      if i <? bound then for_u8 fuel' (u8 (i + 1)) bound body (body i s) else s
  end.

Module Mlx.

(** ** mlx90614_Handler.h *)

Definition MLX90614_ADDR : Z := 0x5A.
Definition MLX90614_REG_ADDR : Z := 0x07.
Definition CRC8_POLYNOMIAL : Z := 0x07.
Definition RETURN_NUM_MLX90614_READSUCCESSFULLY : Z := 0.
Definition RETURN_NUM_MLX90614_READFAIL : Z := 1.
Definition RETURN_NUM_MLX90614_INITSUCCESSFULLY : Z := 2.
Definition RETURN_NUM_MLX90614_INITFAIL : Z := 3.

(** [i2c_rw_t] of the ESP-IDF I2C driver. *)
Definition I2C_MASTER_WRITE : Z := 0.
Definition I2C_MASTER_READ : Z := 1.

(** ** CalculateCrc8 *)

(** The body of the inner loop: one bit of the division. *)
Definition crc_bit (crc : Z) : Z :=
  if negb (Z.land crc 0x80 =? 0)
  then u8 (Z.lxor (Z.shiftl crc 1) CRC8_POLYNOMIAL)
  else u8 (Z.shiftl crc 1).

(** The body of the outer loop.  A read past the end of the buffer is
    undefined in C; the model reads 0 there, and every statement below
    keeps [dataLength] within the buffer. *)
Definition crc_byte (pecbuffer : list Z) (byteIndex : Z) (crc : Z) : Z :=
  let crc := u8 (Z.lxor crc (nth (Z.to_nat byteIndex) pecbuffer 0)) in
  for_u8 8 0 8 (fun _ crc => crc_bit crc) crc.

Definition CalculateCrc8 (pecbuffer : list Z) (dataLength : Z) : Z :=
  for_u8 256 0 dataLength (crc_byte pecbuffer) 0x00.

(** ** The CRC-8 of the design document

    Accumulator 0; each byte is exclusive-ored into the accumulator, then
    eight rounds: when the high bit is set, shift left one (dropping the
    bit that leaves the byte) and exclusive-or with 0x07, otherwise only
    shift. *)

Definition crc8_round (acc : Z) : Z :=
  if Z.testbit acc 7 then Z.lxor ((2 * acc) mod 256) 0x07 else (2 * acc) mod 256.

Definition crc8_absorb (acc b : Z) : Z := Nat.iter 8 crc8_round (Z.lxor acc b).

Definition Crc8 (bytes : list Z) : Z := fold_left crc8_absorb bytes 0.

(** ** Single-precision arithmetic

    The target evaluates [float] expressions in binary32, rounding to
    nearest-even after every operation. *)

Definition f32_of_int (z : Z) : spec_float := binary_normalize 24 128 z 0 false.
Definition f32_mul : spec_float -> spec_float -> spec_float := SFmul 24 128.
Definition f32_add : spec_float -> spec_float -> spec_float := SFadd 24 128.
Definition f32_sub : spec_float -> spec_float -> spec_float := SFsub 24 128.
Definition f32_div : spec_float -> spec_float -> spec_float := SFdiv 24 128.

(** The binary32 number nearest to the decimal [num / den], for integers
    that binary32 holds exactly. *)
Definition f32_literal (num den : Z) : spec_float :=
  f32_div (f32_of_int num) (f32_of_int den).

(** The exact value of a finite binary32 number. *)
Definition f32_value (x : spec_float) : option Q :=
  match x with
  | S754_zero _ => Some 0%Q
  | S754_finite s m e =>
      let mag := if (0 <=? e)%Z then inject_Z (Zpos m * 2 ^ e) else (Zpos m # Pos.pow 2 (Z.to_pos (- e))) in
      Some (if s then Qopp mag else mag)
  | _ => None
  end.

(** The literals of the header: [0.02f], [273.15f], [32.0f], [1.8f]. *)
Definition SCALE_FACTOR : spec_float := S754_finite false 10737418 (-29).
Definition KELVIN_OFFSET : spec_float := S754_finite false 8950579 (-15).
Definition FAHRENHEIT_OFFSET : spec_float := S754_finite false 8388608 (-18).
Definition FAHRENHEIT_MULTIPLIER : spec_float := S754_finite false 15099494 (-23).

(** ** MLX90614ReadTemp *)

(** The command link the function queues. *)
Inductive i2c_cmd :=
| I2cStart
| I2cWriteByte (data : Z) (ack_en : bool)
| I2cReadByte (nack : bool)
| I2cStop.

(** What [i2c_master_cmd_begin] hands back: its status and the three
    bytes clocked in, in the order received. *)
Record i2c_reply := {
  i2c_ret : Z;
  rx_first : Z;
  rx_second : Z;
  rx_third : Z
}.

(** The two floats the out-pointers designate. *)
Record temp_out := {
  tempcelsius : spec_float;
  tempfahrenheit : spec_float
}.

Definition read_temp_cmds : list i2c_cmd :=
  [ I2cStart;
    I2cWriteByte (Z.lor (Z.shiftl MLX90614_ADDR 1) I2C_MASTER_WRITE) true;
    I2cWriteByte MLX90614_REG_ADDR true;
    I2cStart;
    I2cWriteByte (Z.lor (Z.shiftl MLX90614_ADDR 1) I2C_MASTER_READ) true;
    I2cReadByte false;
    I2cReadByte false;
    I2cReadByte true;
    I2cStop ].

(** The five bytes the PEC covers; the sixth cell of the array is never
    assigned and, with [dataLength = 5], never read. *)
Definition pec_frame (lsb msb : Z) : list Z :=
  [ u8 (Z.lor (Z.shiftl MLX90614_ADDR 1) I2C_MASTER_WRITE);
    u8 MLX90614_REG_ADDR;
    u8 (Z.lor (Z.shiftl MLX90614_ADDR 1) I2C_MASTER_READ);
    lsb;
    msb ].

Definition MLX90614ReadTemp (i2c_master_cmd_begin : list i2c_cmd -> i2c_reply)
    (out : temp_out) : Z * temp_out :=
  let reply := i2c_master_cmd_begin read_temp_cmds in
  let lsb := rx_first reply in
  let msb := rx_second reply in
  let pec := rx_third reply in
  let ret := i2c_ret reply in
  if negb (ret =? ESP_OK) then (RETURN_NUM_MLX90614_READFAIL, out)
  else
    let pecbuffer := pec_frame lsb msb ++ [0] in
    let calcpec := CalculateCrc8 pecbuffer 5 in
    if negb (calcpec =? pec) then (RETURN_NUM_MLX90614_READFAIL, out)
    else
      let rawtemp := u16 (Z.lor (Z.shiftl msb 8) lsb) in
      let kelvin := f32_mul (f32_of_int rawtemp) SCALE_FACTOR in
      let out := {| tempcelsius := f32_sub kelvin KELVIN_OFFSET;
                    tempfahrenheit := tempfahrenheit out |} in
      let out := {| tempcelsius := tempcelsius out;
                    tempfahrenheit :=
                      f32_add (f32_mul FAHRENHEIT_MULTIPLIER (f32_sub kelvin KELVIN_OFFSET))
                              FAHRENHEIT_OFFSET |} in
      (RETURN_NUM_MLX90614_READSUCCESSFULLY, out).

(** ** The conversion of the design document, in exact arithmetic *)

Definition raw_of_bytes (lsb msb : Z) : Z := msb * 256 + lsb.
Definition kelvin_exact (raw : Z) : Q := (inject_Z raw * (2 # 100))%Q.
Definition celsius_exact (raw : Z) : Q := (kelvin_exact raw - (27315 # 100))%Q.
Definition fahrenheit_exact (raw : Z) : Q := ((18 # 10) * celsius_exact raw + 32)%Q.

(** A binary32 number is finite and no further than [eps] from [exact]. *)
Definition f32_near (x : spec_float) (exact eps : Q) : Prop :=
  exists q : Q, f32_value x = Some q /\ (q - exact <= eps)%Q /\ (exact - q <= eps)%Q.

Definition f32_nearb (x : spec_float) (exact eps : Q) : bool :=
  match f32_value x with
  | Some q => Qle_bool (q - exact) eps && Qle_bool (exact - q) eps
  | None => false
  end.

(** How far the computed temperatures may lie from the exact ones. *)
Definition KELVIN_TOLERANCE : Q := 1 # 10000.
Definition CELSIUS_TOLERANCE : Q := 1 # 8000.
Definition FAHRENHEIT_TOLERANCE : Q := 1 # 3000.

(** The conversion of lines 96 to 99 on the two data bytes. *)
Definition rawtemp_of (lsb msb : Z) : Z := u16 (Z.lor (Z.shiftl msb 8) lsb).
Definition kelvin_of (rawtemp : Z) : spec_float := f32_mul (f32_of_int rawtemp) SCALE_FACTOR.
Definition celsius_of (rawtemp : Z) : spec_float := f32_sub (kelvin_of rawtemp) KELVIN_OFFSET.
Definition fahrenheit_of (rawtemp : Z) : spec_float :=
  f32_add (f32_mul FAHRENHEIT_MULTIPLIER (f32_sub (kelvin_of rawtemp) KELVIN_OFFSET))
          FAHRENHEIT_OFFSET.

Definition conversion_ok (lsb msb : Z) : bool :=
  let raw := raw_of_bytes lsb msb in
  (rawtemp_of lsb msb =? raw)
  && f32_nearb (f32_of_int raw) (inject_Z raw) 0
  && f32_nearb (kelvin_of raw) (kelvin_exact raw) KELVIN_TOLERANCE
  && f32_nearb (celsius_of raw) (celsius_exact raw) CELSIUS_TOLERANCE
  && f32_nearb (fahrenheit_of raw) (fahrenheit_exact raw) FAHRENHEIT_TOLERANCE.

End Mlx.


Module Platform.

(** ** The platform under the SD-card handler

    What the handler needs of ESP-IDF (SPI master, SDSPI host, FAT VFS) and
    of the C library ([fopen], [fprintf], [fgets], [fclose], [printf]).
    Calls whose outcome the hardware decides take it from an [Env]. *)

Inductive fmode := ModeR | ModeW | ModeA.

Inductive Event :=
| EvSpiBusInitialize (ret : Z)
| EvSdspiMount (ret : Z)
| EvSpiBusFree (ret : Z)
| EvSdcardUnmount (ret : Z)
| EvCardPrintInfo
| EvFopen (path : string) (mode : fmode) (opened : bool)
| EvFclose (path : string).

Record World := {
  spi_claimed : bool;            (* SPI2_HOST is initialised *)
  fat_mounted : bool;            (* a FAT volume is registered at MOUNT_POINT *)
  card : option Z;               (* the global [sdmmc_card_t *card]; [None] before any mount *)
  files : gmap string string;    (* the files of the card, by full path *)
  open_streams : nat;            (* FILE streams open on the volume *)
  console : list string;         (* stdout, one entry per [printf] *)
  trace : list Event             (* platform calls, oldest first *)
}.

Record Env := {
  spi_init_result : Z;           (* [spi_bus_initialize] on a free host *)
  mount_result : Z;              (* [esp_vfs_fat_sdspi_mount] on a claimed bus *)
  unmount_result : Z;            (* [esp_vfs_fat_sdcard_unmount] of a mounted card *)
  card_handle : Z;               (* the card structure a successful mount allocates *)
  writable_at : string -> bool   (* the volume lets this path be created or opened for writing *)
}.

(** [max_files] of the mount configuration in [InitSdCard]. *)
Definition MAX_FILES : nat := 5.

Definition M (A : Type) : Type := World -> A * World.

Definition ret {A : Type} (a : A) : M A := fun w => (a, w).

Definition bind {A B : Type} (c : M A) (k : A -> M B) : M B :=
  fun w => let (a, w') := c w in k a w'.

Definition emit (e : Event) : M unit :=
  fun w => (tt, {| spi_claimed := spi_claimed w; fat_mounted := fat_mounted w;
                   card := card w; files := files w; open_streams := open_streams w;
                   console := console w; trace := trace w ++ [e] |}).

Definition set_spi_claimed (b : bool) : M unit :=
  fun w => (tt, {| spi_claimed := b; fat_mounted := fat_mounted w;
                   card := card w; files := files w; open_streams := open_streams w;
                   console := console w; trace := trace w |}).

Definition set_mounted (b : bool) (c : option Z) : M unit :=
  fun w => (tt, {| spi_claimed := spi_claimed w; fat_mounted := b;
                   card := c; files := files w; open_streams := open_streams w;
                   console := console w; trace := trace w |}).

Definition set_files (fs : gmap string string) : M unit :=
  fun w => (tt, {| spi_claimed := spi_claimed w; fat_mounted := fat_mounted w;
                   card := card w; files := fs; open_streams := open_streams w;
                   console := console w; trace := trace w |}).

Definition set_open_streams (n : nat) : M unit :=
  fun w => (tt, {| spi_claimed := spi_claimed w; fat_mounted := fat_mounted w;
                   card := card w; files := files w; open_streams := n;
                   console := console w; trace := trace w |}).

Definition printf (s : string) : M unit :=
  fun w => (tt, {| spi_claimed := spi_claimed w; fat_mounted := fat_mounted w;
                   card := card w; files := files w; open_streams := open_streams w;
                   console := console w ++ [s]; trace := trace w |}).

Definition get {A : Type} (f : World -> A) : M A := fun w => (f w, w).

End Platform.

Import Platform.

Declare Scope sd_scope.
Delimit Scope sd_scope with sd.
Notation "'call' x ':=' c 'in' k" := (bind c (fun x => k))
  (at level 10, x name, c at level 100, k at level 200) : sd_scope.
Notation "'exec' c 'in' k" := (bind c (fun _ => k))
  (at level 10, c at level 100, k at level 200) : sd_scope.
Local Open Scope sd_scope.

Module Spi.

(** [spi_bus_initialize]: a host already in use is refused with
    [ESP_ERR_INVALID_STATE]; otherwise the hardware decides. *)
Definition spi_bus_initialize (env : Env) : M Z :=
  call claimed := get spi_claimed in
  let r := if claimed then ESP_ERR_INVALID_STATE else spi_init_result env in
  exec emit (EvSpiBusInitialize r) in
  if r =? ESP_OK then exec set_spi_claimed true in ret r else ret r.

(** [spi_bus_free]: refused with [ESP_ERR_INVALID_STATE] when the host is
    not initialised or a device is still attached to it. *)
Definition spi_bus_free : M Z :=
  call claimed := get spi_claimed in
  call mounted := get fat_mounted in
  let r := if claimed && negb mounted then ESP_OK else ESP_ERR_INVALID_STATE in
  exec emit (EvSpiBusFree r) in
  if r =? ESP_OK then exec set_spi_claimed false in ret r else ret r.

(** [esp_vfs_fat_sdspi_mount]: needs the bus and a free mount point; on
    success the volume is registered and the card structure handed out
    through the last argument; on failure it undoes what it set up and
    leaves that argument alone. *)
Definition esp_vfs_fat_sdspi_mount (env : Env) : M Z :=
  call claimed := get spi_claimed in
  call mounted := get fat_mounted in
  let r := if claimed && negb mounted then mount_result env else ESP_ERR_INVALID_STATE in
  exec emit (EvSdspiMount r) in
  if r =? ESP_OK then exec set_mounted true (Some (card_handle env)) in ret r else ret r.

(** [esp_vfs_fat_sdcard_unmount]: refused when nothing is mounted. *)
Definition esp_vfs_fat_sdcard_unmount (env : Env) : M Z :=
  call mounted := get fat_mounted in
  call c := get card in
  let r := if mounted then unmount_result env else ESP_ERR_INVALID_STATE in
  exec emit (EvSdcardUnmount r) in
  if r =? ESP_OK then exec set_mounted false c in ret r else ret r.

Definition sdmmc_card_print_info : M unit := emit EvCardPrintInfo.

End Spi.

Module Stdio.

Definition nl : string := String (ascii_of_nat 10) EmptyString.

Record FILE := { f_path : string; f_mode : fmode; f_pos : nat }.

(** Whether [fopen] can succeed: the volume is mounted, a stream slot is
    free, and the file exists (reading) or may be written (writing and
    appending, which create a missing file). *)
Definition can_open (env : Env) (path : string) (mode : fmode) (w : World) : bool :=
  fat_mounted w && (open_streams w <? MAX_FILES)%nat &&
  match mode with
  | ModeR => bool_decide (is_Some (files w !! path))
  | ModeW | ModeA => writable_at env path
  end.

(** The files after a successful [fopen]: ["w"] truncates or creates,
    ["a"] creates when absent and keeps what is there, ["r"] changes
    nothing. *)
Definition opened_files (path : string) (mode : fmode) (fs : gmap string string)
    : gmap string string :=
  match mode with
  | ModeR => fs
  | ModeW => <[path := EmptyString]> fs
  | ModeA => match fs !! path with
             | Some _ => fs
             | None => <[path := EmptyString]> fs
             end
  end.

Definition fopen (env : Env) (path : string) (mode : fmode) : M (option FILE) :=
  call ok := get (can_open env path mode) in
  exec emit (EvFopen path mode ok) in
  if ok then
    call fs := get files in
    exec set_files (opened_files path mode fs) in
    call n := get open_streams in
    exec set_open_streams (S n) in
    ret (Some {| f_path := path; f_mode := mode; f_pos := 0 |})
  else ret None.

Definition fclose (f : FILE) : M unit :=
  exec emit (EvFclose (f_path f)) in
  call n := get open_streams in
  set_open_streams (Nat.pred n).

(** [fprintf] on a stream opened for writing or appending: the text goes
    to the end of the file. *)
Definition fprintf (f : FILE) (text : string) : M unit :=
  call fs := get files in
  set_files (<[f_path f := (default EmptyString (fs !! f_path f) ++ text)%string]> fs).

Fixpoint string_drop (n : nat) (s : string) : string :=
  match n, s with
  | O, _ => s
  | S n', String _ s' => string_drop n' s'
  | S _, EmptyString => EmptyString
  end.

(** What one [fgets] takes from the unread text: at most [n] characters,
    ending after the first newline. *)
Fixpoint take_line (n : nat) (s : string) : string :=
  match n, s with
  | S n', String c s' =>
      String c (if Ascii.eqb c (ascii_of_nat 10) then EmptyString else take_line n' s')
  | _, _ => EmptyString
  end.

(** [fgets (line, size, f)]: [None] at end of file, else the next piece
    and the stream moved past it. *)
Definition fgets (size : nat) (f : FILE) : M (option string * FILE) :=
  call fs := get files in
  let unread := string_drop (f_pos f) (default EmptyString (fs !! f_path f)) in
  let line := take_line (Nat.pred size) unread in
  match line with
  | EmptyString => ret (None, f)
  | _ => ret (Some line, {| f_path := f_path f; f_mode := f_mode f;
                            f_pos := f_pos f + String.length line |})
  end.

End Stdio.

Module SdCard.

Import Spi Stdio.

(** ** SDCardHandler.h *)

Definition MOUNT_POINT : string := "/sdcard".
Definition SDTAG : string := "SD_CARD".

Definition RETURN_NUM_SDCARD_MOUNTSUCCESSFULLY : Z := 0.
Definition RETURN_NUM_SDCARD_MOUNTFAIL : Z := 1.
Definition RETURN_NUM_SDCARD_WRITESUCCESSFULL : Z := 2.
Definition RETURN_NUM_SDCARD_WRITEFAIL : Z := 3.
Definition RETURN_NUM_SDCARD_READSUCCESSFULL : Z := 4.
Definition RETURN_NUM_SDCARD_READFAIL : Z := 5.
Definition RETURN_NUM_SDCARD_APPENDSUCCESSFULLY : Z := 6.
Definition RETURN_NUM_SDCARD_APPENDFAIL : Z := 7.
Definition RETURN_NUM_SDCARD_DELETEFILESUCCESSFULLY : Z := 8.
Definition RETURN_NUM_SDCARD_DELETEFILEFAIL : Z := 9.

(** ** SDCardHandler.c *)

Definition FileExists (env : Env) (StringPath : string) : M bool :=
  call file := fopen env StringPath ModeR in
  match file with
  | Some f => exec fclose f in ret true
  | None => ret false
  end.

Definition CreateFile (env : Env) (StringPath : string) : M bool :=
  call PtrFile := fopen env StringPath ModeW in
  match PtrFile with
  | None => ret false
  | Some f => exec fclose f in ret true
  end.

(** Lines 99 to 106 of [LogToSDCard], reached on both ways through the
    test at its head. *)
Definition log_append (env : Env) (filePath tag message : string) : M Z :=
  call PtrFile := fopen env filePath ModeA in
  match PtrFile with
  | None => ret RETURN_NUM_SDCARD_APPENDFAIL
  | Some f =>
      exec fprintf f (tag ++ ": " ++ message ++ nl)%string in
      exec fclose f in
      ret RETURN_NUM_SDCARD_APPENDSUCCESSFULLY
  end.

Definition LogToSDCard (env : Env) (tag message : string) : M Z :=
  let filePath := (MOUNT_POINT ++ "/SDCARD.txt")%string in
  call present := FileExists env filePath in
  if negb present then
    call created := CreateFile env filePath in
    if negb created then ret RETURN_NUM_SDCARD_APPENDFAIL
    else log_append env filePath tag message
  else log_append env filePath tag message.

Definition InitSdCard (env : Env) : M Z :=
  exec LogToSDCard env SDTAG "Initializing SD card..." in
  call r := spi_bus_initialize env in
  if negb (r =? ESP_OK) then
    exec LogToSDCard env SDTAG "Failed to initialize SPI bus" in
    ret (u8 r)
  else
    call r := esp_vfs_fat_sdspi_mount env in
    if negb (r =? ESP_OK) then
      exec spi_bus_free in
      ret RETURN_NUM_SDCARD_MOUNTFAIL
    else
      exec sdmmc_card_print_info in
      ret RETURN_NUM_SDCARD_MOUNTSUCCESSFULLY.

Definition WriteFile (env : Env) (StringPath : string) : M Z :=
  call PtrFile := fopen env StringPath ModeW in
  match PtrFile with
  | None => ret RETURN_NUM_SDCARD_WRITEFAIL
  | Some f =>
      exec fprintf f ("sectr!" ++ nl)%string in
      exec fprintf f ("CONSOLE." ++ nl)%string in
      exec fclose f in
      ret RETURN_NUM_SDCARD_WRITESUCCESSFULL
  end.

(** [while (fgets(line, sizeof(line), PtrFile)) printf("%s", line);] *)
Fixpoint read_loop (fuel : nat) (f : FILE) : M unit :=
  match fuel with
  | O => ret tt
  | S fuel' =>
      call got := fgets 128 f in
      match fst got with
      | None => ret tt
      | Some line => exec printf line in read_loop fuel' (snd got)
      end
  end.

(** Every turn of the loop but the last takes at least one character, so
    one more turn than the file has characters is enough. *)
Definition ReadFile (env : Env) (StringPath : string) : M Z :=
  call PtrFile := fopen env StringPath ModeR in
  match PtrFile with
  | None => ret RETURN_NUM_SDCARD_READFAIL
  | Some f =>
      call fs := get files in
      exec read_loop (S (String.length (default EmptyString (fs !! StringPath)))) f in
      exec fclose f in
      ret RETURN_NUM_SDCARD_READSUCCESSFULL
  end.

Definition AppendFile (env : Env) (StringPath Data : string) : M Z :=
  call PtrFile := fopen env StringPath ModeA in
  match PtrFile with
  | None => ret RETURN_NUM_SDCARD_APPENDFAIL
  | Some f =>
      exec fprintf f (Data ++ nl)%string in
      exec fclose f in
      ret RETURN_NUM_SDCARD_APPENDSUCCESSFULLY
  end.

Definition SdCardUnmount (env : Env) : M unit :=
  call status := esp_vfs_fat_sdcard_unmount env in
  if status =? ESP_OK then
    call status := spi_bus_free in
    if status =? ESP_OK then printf "SD Card unmounted successfully."
    else printf "SPI bus release failed after unmount."
  else printf "SD Card unmount failed.".

End SdCard.

Module Sample.

(** Concrete platforms and worlds, for running the handlers. *)

Definition under_mount (path : string) : bool := String.prefix "/sdcard/" path.

Definition env_ok : Env :=
  {| spi_init_result := ESP_OK; mount_result := ESP_OK; unmount_result := ESP_OK;
     card_handle := 1; writable_at := under_mount |}.

Definition env_bus_fails (err : Z) : Env :=
  {| spi_init_result := err; mount_result := ESP_OK; unmount_result := ESP_OK;
     card_handle := 1; writable_at := under_mount |}.

Definition env_mount_fails : Env :=
  {| spi_init_result := ESP_OK; mount_result := ESP_FAIL; unmount_result := ESP_OK;
     card_handle := 1; writable_at := under_mount |}.

Definition env_unmount_fails : Env :=
  {| spi_init_result := ESP_OK; mount_result := ESP_OK; unmount_result := ESP_FAIL;
     card_handle := 1; writable_at := under_mount |}.

(** Power-on: nothing claimed, nothing mounted, the given card inserted. *)
Definition world_off (fs : gmap string string) : World :=
  {| spi_claimed := false; fat_mounted := false; card := None; files := fs;
     open_streams := 0; console := []; trace := [] |}.

(** After a successful [InitSdCard]. *)
Definition world_on (fs : gmap string string) : World :=
  {| spi_claimed := true; fat_mounted := true; card := Some 1; files := fs;
     open_streams := 0; console := []; trace := [] |}.

Definition log_path : string := "/sdcard/SDCARD.txt".
Definition mlx_path : string := "/sdcard/MLX90614.txt".

(** A sensor that answers every transaction with the same three bytes. *)
Definition sensor (status lsb msb pec : Z) : list Mlx.i2c_cmd -> Mlx.i2c_reply :=
  fun _ => {| Mlx.i2c_ret := status; Mlx.rx_first := lsb; Mlx.rx_second := msb;
              Mlx.rx_third := pec |}.

Definition out_nan : Mlx.temp_out :=
  {| Mlx.tempcelsius := S754_nan; Mlx.tempfahrenheit := S754_nan |}.

(** A read of two zero data bytes under their PEC, 0x06. *)
Definition zero_read : Z * Mlx.temp_out :=
  Mlx.MLX90614ReadTemp (sensor ESP_OK 0 0 6) out_nan.

End Sample.

(** ** Vocabulary of the statements about the storage handler *)

Import Spi Stdio SdCard.

(** What a successful append leaves in the file. *)
Definition appended (path text : string) (fs : gmap string string) : gmap string string :=
  <[path := (default EmptyString (fs !! path) ++ text)%string]> fs.

Definition default_text : string := ("sectr!" ++ nl ++ "CONSOLE." ++ nl)%string.

(** The pieces [fgets] cuts a text into, [fuel] of them at most. *)
Fixpoint fgets_pieces (fuel : nat) (unread : string) : list string :=
  match fuel with
  | O => []
  | S fuel' =>
      match take_line 127 unread with
      | EmptyString => []
      | line => line :: fgets_pieces fuel' (string_drop (String.length line) unread)
      end
  end.

(** A mounted volume sits on a claimed bus. *)
Definition wf (w : World) : Prop := fat_mounted w = true -> spi_claimed w = true.

Definition file_event (e : Event) : Prop :=
  match e with
  | EvFopen _ _ _ | EvFclose _ => True
  | _ => False
  end.

(** What a file operation may change: files, when a volume is mounted,
    and the trace, by [fopen] and [fclose] events. *)
Definition files_only (w w' : World) : Prop :=
  spi_claimed w' = spi_claimed w
  /\ fat_mounted w' = fat_mounted w
  /\ card w' = card w
  /\ open_streams w' = open_streams w
  /\ console w' = console w
  /\ (fat_mounted w = false -> files w' = files w)
  /\ exists evs, trace w' = trace w ++ evs /\ Forall file_event evs.

Definition mount_event (e : Event) : Prop :=
  match e with
  | EvSdspiMount _ => True
  | _ => False
  end.

(** The outcome of [spi_bus_initialize] in [InitSdCard], read off the
    world the function starts in. *)
Definition bus_init_status (env : Env) (w : World) : Z :=
  if spi_claimed w then ESP_ERR_INVALID_STATE else spi_init_result env.

(** ** Vocabulary of the further statements about the sensor driver *)

Import Mlx.

(** The bytes of two frames exclusive-ored cell by cell: what a frame
    becomes when the bits set in the other are flipped on the wire. *)
Fixpoint xor_frames (a e : list Z) : list Z :=
  match a, e with
  | x :: a', d :: e' => Z.lxor x d :: xor_frames a' e'
  | _, _ => []
  end.

(** How many of the eight bits of a byte are set. *)
Definition popcount8 (z : Z) : Z :=
  fold_left (fun n i => if Z.testbit z (Z.of_nat i) then n + 1 else n) (seq 0 8) 0.

(** The 256 byte values, in order. *)
Definition all_bytes : list Z := map Z.of_nat (seq 0 256).

(** No error pattern on the two data bytes and their PEC has fewer than
    four bits set, the pattern of no error apart. *)
Definition pec_distance_ok (dl dm : Z) : bool :=
  ((dl =? 0) && (dm =? 0))
  || (4 <=? popcount8 dl + popcount8 dm + popcount8 (Crc8 [dl; dm])).

(** [f i], [f (i + 1)], ... are finite and climb strictly from above
    [prev], for [fuel] arguments. *)
Fixpoint climbs (f : Z -> spec_float) (fuel : nat) (i : Z) (prev : Q) : bool :=
  match fuel with
  | O => true
  | S fuel' =>
      match f32_value (f i) with
      | Some q => negb (Qle_bool q prev) && climbs f fuel' (i + 1) q
      | None => false
      end
  end.

(** ** unlink and DeleteFile *)

Module Unistd.

(** [unlink]: 0 when a volume is mounted, the file is there and the
    volume lets the path be written; -1 otherwise.  The call leaves no
    entry in the trace. *)
Definition unlink (env : Env) (path : string) : M Z :=
  call mounted := get fat_mounted in
  call fs := get files in
  if mounted && bool_decide (is_Some (fs !! path)) && writable_at env path
  then exec set_files (delete path fs) in ret 0
  else ret (-1).

End Unistd.

Module SdCardRest.

Import Unistd.

Definition DeleteFile (env : Env) (StringPath : string) : M Z :=
  call r := unlink env StringPath in
  if r =? 0 then ret RETURN_NUM_SDCARD_DELETEFILESUCCESSFULLY
  else ret RETURN_NUM_SDCARD_DELETEFILEFAIL.

End SdCardRest.

(** ** The I2C driver and MLX90614I2CInit *)

Module I2cDriver.

(** Values of the ESP-IDF headers. *)
Definition I2C_NUM_0 : Z := 0.
Definition I2C_MODE_MASTER : Z := 1.
Definition GPIO_PULLUP_ENABLE : Z := 1.

Record i2c_config_t := {
  mode : Z;
  sda_io_num : Z;
  scl_io_num : Z;
  sda_pullup_en : Z;
  scl_pullup_en : Z;
  master_clk_speed : Z
}.

Inductive I2cEvent :=
| EvI2cParamConfig (port : Z) (conf : i2c_config_t) (ret : Z)
| EvI2cDriverInstall (port : Z) (mode : Z) (ret : Z)
| EvI2cCmdBegin (port : Z) (cmds : list i2c_cmd) (timeout_ms : Z) (ret : Z).

Record I2cState := {
  driver_installed : bool;         (* the driver of I2C_NUM_0 is installed *)
  i2c_trace : list I2cEvent        (* driver calls, oldest first *)
}.

Record I2cEnv := {
  param_config_result : i2c_config_t -> Z;   (* [i2c_param_config] on this configuration *)
  driver_install_result : Z                  (* [i2c_driver_install] on a port without driver *)
}.

Definition i2c_param_config (ienv : I2cEnv) (port : Z) (conf : i2c_config_t)
    (st : I2cState) : Z * I2cState :=
  let r := param_config_result ienv conf in
  (r, {| driver_installed := driver_installed st;
         i2c_trace := i2c_trace st ++ [EvI2cParamConfig port conf r] |}).

(** [i2c_driver_install]: a port that has its driver is refused with
    [ESP_FAIL]; otherwise the hardware decides. *)
Definition i2c_driver_install (ienv : I2cEnv) (port mode : Z) (st : I2cState)
    : Z * I2cState :=
  let r := if driver_installed st then ESP_FAIL else driver_install_result ienv in
  (r, {| driver_installed := driver_installed st || (r =? ESP_OK);
         i2c_trace := i2c_trace st ++ [EvI2cDriverInstall port mode r] |}).

End I2cDriver.

Module MlxRest.

Import I2cDriver.

Definition MLX90614_I2C_PORT : Z := I2C_NUM_0.
Definition MLX90614_SCL_GPIO : Z := 16.
Definition MLX90614_SDA_GPIO : Z := 15.
Definition MLX90614_I2C_FREQ_HZ : Z := 100000.
Definition I2C_TIMEOUT_MS : Z := 1000.

Definition MLX90614I2CInit (ienv : I2cEnv) (st : I2cState) : Z * I2cState :=
  let conf := {| mode := I2C_MODE_MASTER;
                 sda_io_num := MLX90614_SDA_GPIO;
                 scl_io_num := MLX90614_SCL_GPIO;
                 sda_pullup_en := GPIO_PULLUP_ENABLE;
                 scl_pullup_en := GPIO_PULLUP_ENABLE;
                 master_clk_speed := MLX90614_I2C_FREQ_HZ |} in
  let configured := i2c_param_config ienv MLX90614_I2C_PORT conf st in
  let err := fst configured in
  if negb (err =? ESP_OK) then (RETURN_NUM_MLX90614_INITFAIL, snd configured)
  else
    let installed := i2c_driver_install ienv MLX90614_I2C_PORT (mode conf) (snd configured) in
    if fst installed =? ESP_OK
    then (RETURN_NUM_MLX90614_INITSUCCESSFULLY, snd installed)
    else (RETURN_NUM_MLX90614_INITFAIL, snd installed).

End MlxRest.

(** ** main.c *)

Module Main.

Import I2cDriver MlxRest SdCardRest.

(** The board: the card side, the I2C side, and the two locals of
    [app_main] that receive the temperatures. *)
Record Board := {
  sd : World;
  i2c : I2cState;
  temps : temp_out
}.

Definition MlxFilePath : string := (MOUNT_POINT ++ "/MLX90614.txt")%string.

Section AppMain.

(** The text [sprintf] produces for ["%.2f"]. *)
Variable sprintf_2f : spec_float -> string.

Variable env : Env.
Variable ienv : I2cEnv.

(** The bus at each turn of the polling loop. *)
Variable sensor : nat -> list i2c_cmd -> i2c_reply.

(** Lines 30 to 41: the sensor file is created when [FileExists] says
    it is not there. *)
Definition ensure_file : M unit :=
  call present := FileExists env MlxFilePath in
  if negb present then
    call created := CreateFile env MlxFilePath in
    if created then printf ("File created successfully." ++ nl)
    else printf ("File not created." ++ nl)
  else printf ("File already exists. Continuing with operations." ++ nl).

(** Lines 55 to 71 on the card side, given what the read returned. *)
Definition report (status : Z) (tempcelsius : spec_float) : M unit :=
  if status =? RETURN_NUM_MLX90614_READSUCCESSFULLY then
    let finaldata := ("celsius=" ++ sprintf_2f tempcelsius)%string in
    call numstatus := AppendFile env MlxFilePath finaldata in
    if numstatus =? RETURN_NUM_SDCARD_APPENDSUCCESSFULLY
    then printf ("Append Successfull." ++ nl)
    else printf ("Append Fail." ++ nl)
  else printf ("Failed to Read Temperature." ++ nl).

(** One turn of [while (1)], the delay apart. *)
Definition poll (k : nat) (b : Board) : Board :=
  let read := MLX90614ReadTemp (sensor k) (temps b) in
  {| sd := snd (report (fst read) (tempcelsius (snd read)) (sd b));
     i2c := {| driver_installed := driver_installed (i2c b);
               i2c_trace := i2c_trace (i2c b)
                            ++ [EvI2cCmdBegin MLX90614_I2C_PORT read_temp_cmds
                                  I2C_TIMEOUT_MS (i2c_ret (sensor k read_temp_cmds))] |};
     temps := snd read |}.

(** [turns] turns of the loop, the first of them turn [k]. *)
Fixpoint poll_from (k turns : nat) (b : Board) : Board :=
  match turns with
  | O => b
  | S turns' => poll_from (S k) turns' (poll k b)
  end.

(** [app_main], stopped after [turns] turns of its loop when it gets
    there; the loop itself never ends. *)
Definition app_main (turns : nat) (b : Board) : Board :=
  let mounted := InitSdCard env (sd b) in
  if fst mounted =? RETURN_NUM_SDCARD_MOUNTSUCCESSFULLY then
    let w := snd ((exec printf ("SD Card Mount Successfull." ++ nl) in ensure_file)
                    (snd mounted)) in
    let init := MLX90614I2CInit ienv (i2c b) in
    if fst init =? RETURN_NUM_MLX90614_INITSUCCESSFULLY then
      poll_from 0 turns
        {| sd := snd (printf ("I2C initialized." ++ nl) w); i2c := snd init;
           temps := temps b |}
    else
      {| sd := snd (printf ("Failed to initialize MLX90614." ++ nl) w); i2c := snd init;
         temps := temps b |}
  else {| sd := snd mounted; i2c := i2c b; temps := temps b |}.

End AppMain.

End Main.

(** ** Vocabulary of the further statements about the storage handler *)

Import Unistd SdCardRest I2cDriver MlxRest Main.


(** [AppendFile] once for each text, in order; the codes returned. *)
Fixpoint append_each (env : Env) (path : string) (texts : list string) : M (list Z) :=
  match texts with
  | [] => ret []
  | text :: texts' =>
      call code := AppendFile env path text in
      call codes := append_each env path texts' in
      ret (code :: codes)
  end.

Fixpoint no_newline (s : string) : bool :=
  match s with
  | EmptyString => true
  | String c s' => negb (Ascii.eqb c (ascii_of_nat 10)) && no_newline s'
  end.

(** A text that [fgets] with the buffer of [ReadFile] takes as one line. *)
Definition short_line (s : string) : Prop :=
  no_newline s = true /\ (String.length s < 127)%nat.

(** The text of lines, each followed by a newline. *)
Definition lines_text (lines : list string) : string :=
  fold_right (fun l t => (l ++ nl ++ t)%string) EmptyString lines.

(** The line a turn of the polling loop adds to the sensor file: none
    when the read is refused. *)
Definition turn_text (sprintf_2f : spec_float -> string)
    (sensor : nat -> list i2c_cmd -> i2c_reply) (k : nat) : string :=
  let read := MLX90614ReadTemp (sensor k) Sample.out_nan in
  if fst read =? RETURN_NUM_MLX90614_READSUCCESSFULLY
  then ("celsius=" ++ sprintf_2f (tempcelsius (snd read)) ++ nl)%string
  else EmptyString.

Fixpoint turns_text (sprintf_2f : spec_float -> string)
    (sensor : nat -> list i2c_cmd -> i2c_reply) (k turns : nat) : string :=
  match turns with
  | O => EmptyString
  | S turns' => (turn_text sprintf_2f sensor k ++ turns_text sprintf_2f sensor (S k) turns')%string
  end.

(** The configuration [MLX90614I2CInit] hands to the driver. *)
Definition init_conf : i2c_config_t :=
  {| mode := I2C_MODE_MASTER; sda_io_num := 15; scl_io_num := 16;
     sda_pullup_en := 1; scl_pullup_en := 1; master_clk_speed := 100000 |}.

Definition is_cmd_begin (e : I2cEvent) : bool :=
  match e with
  | EvI2cCmdBegin _ _ _ _ => true
  | _ => false
  end.

(** How many transactions the trace of the I2C driver holds. *)
Definition transactions (st : I2cState) : nat :=
  length (List.filter is_cmd_begin (i2c_trace st)).

Module SampleRest.

Definition ienv_ok : I2cEnv :=
  {| param_config_result := fun _ => ESP_OK; driver_install_result := ESP_OK |}.

Definition i2c_off : I2cState := {| driver_installed := false; i2c_trace := [] |}.

Definition board_off (fs : gmap string string) : Board :=
  {| sd := Sample.world_off fs; i2c := i2c_off; temps := Sample.out_nan |}.

(** A sensor that answers the turns of even number with raw 0x4441 under
    its PEC and the others with a PEC one bit off. *)
Definition sensor_flaky (k : nat) : list i2c_cmd -> i2c_reply :=
  if Nat.even k then Sample.sensor ESP_OK 0x41 0x44 0x93
  else Sample.sensor ESP_OK 0x41 0x44 0x92.

(** A stand-in for the text of ["%.2f"], for running [app_main]: it
    tells the positive readings from the others. *)
Definition sprintf_stub (x : spec_float) : string :=
  match x with
  | S754_finite false _ _ => "76.31"
  | _ => "0.00"
  end.

End SampleRest.

(** * Properties *)

(** ** Bytes *)

Lemma is_u8b_spec z : is_u8b z = true <-> is_u8 z.
Proof. unfold is_u8b, is_u8. rewrite andb_true_iff, Z.leb_le, Z.ltb_lt. tauto. Qed.

Lemma u8_range z : is_u8 (u8 z).
Proof. unfold is_u8, u8. apply Z.mod_pos_bound. lia. Qed.

Lemma u8_small z : is_u8 z -> u8 z = z.
Proof. unfold is_u8, u8. intros. apply Z.mod_small. lia. Qed.

(** A statement about one byte is settled by running through all 256. *)
Lemma u8_all (P : Z -> bool) :
  forallb P (map Z.of_nat (seq 0 256)) = true ->
  forall z, is_u8 z -> P z = true.
Proof.
  intros Hall z Hz.
  rewrite forallb_forall in Hall. apply Hall.
  rewrite in_map_iff. exists (Z.to_nat z). split.
  - unfold is_u8 in Hz. lia.
  - apply in_seq. unfold is_u8 in Hz. lia.
Qed.

Lemma lxor_u8 a b : is_u8 a -> is_u8 b -> is_u8 (Z.lxor a b).
Proof.
  unfold is_u8. intros Ha Hb. split.
  - apply Z.lxor_nonneg. lia.
  - destruct (Z.eq_dec (Z.lxor a b) 0) as [->|Hne]; [lia|].
    assert (Hpos : 0 < Z.lxor a b) by (assert (0 <= Z.lxor a b) by (apply Z.lxor_nonneg; lia); lia).
    apply Z.log2_lt_pow2 with (b := 8) in Hpos as Hlt. apply Hlt.
    destruct (Z.eq_dec a 0) as [->|Ha0]; [rewrite Z.lxor_0_l; destruct (Z.eq_dec b 0) as [->|]; [simpl; lia|apply Z.log2_lt_pow2; lia]|].
    destruct (Z.eq_dec b 0) as [->|Hb0]; [rewrite Z.lxor_0_r; apply Z.log2_lt_pow2; lia|].
    eapply Z.le_lt_trans; [apply Z.log2_lxor; lia|].
    apply Z.max_lub_lt; apply Z.log2_lt_pow2; lia.
Qed.


Import Mlx.

Lemma crc_bit_round crc : is_u8 crc -> crc_bit crc = crc8_round crc.
Proof.
  intros H.
  apply (u8_all (fun z => crc_bit z =? crc8_round z)) in H.
  - now apply Z.eqb_eq.
  - vm_compute. reflexivity.
Qed.

Lemma crc8_round_range acc : is_u8 acc -> is_u8 (crc8_round acc).
Proof.
  intros H.
  apply (u8_all (fun z => is_u8b (crc8_round z))) in H.
  - now apply is_u8b_spec.
  - vm_compute. reflexivity.
Qed.

Lemma crc_bits_absorb acc b :
  is_u8 acc -> is_u8 b ->
  for_u8 8 0 8 (fun _ crc => crc_bit crc) (u8 (Z.lxor acc b)) = crc8_absorb acc b.
Proof.
  intros Ha Hb.
  assert (H0 : is_u8 (Z.lxor acc b)) by now apply lxor_u8.
  rewrite (u8_small _ H0). unfold crc8_absorb.
  generalize dependent (Z.lxor acc b). intros x H0.
  cbn [for_u8 Nat.iter nat_rect].
  change (u8 (0 + 1)) with 1. change (u8 (1 + 1)) with 2. change (u8 (2 + 1)) with 3.
  change (u8 (3 + 1)) with 4. change (u8 (4 + 1)) with 5. change (u8 (5 + 1)) with 6.
  change (u8 (6 + 1)) with 7. cbn [Z.ltb Z.compare Pos.compare Pos.compare_cont].
  pose proof (crc8_round_range x H0) as H1.
  pose proof (crc8_round_range _ H1) as H2.
  pose proof (crc8_round_range _ H2) as H3.
  pose proof (crc8_round_range _ H3) as H4.
  pose proof (crc8_round_range _ H4) as H5.
  pose proof (crc8_round_range _ H5) as H6.
  pose proof (crc8_round_range _ H6) as H7.
  rewrite (crc_bit_round x H0), (crc_bit_round _ H1), (crc_bit_round _ H2),
    (crc_bit_round _ H3), (crc_bit_round _ H4), (crc_bit_round _ H5),
    (crc_bit_round _ H6), (crc_bit_round _ H7).
  reflexivity.
Qed.

Lemma crc8_absorb_range acc b : is_u8 acc -> is_u8 b -> is_u8 (crc8_absorb acc b).
Proof.
  intros Ha Hb. unfold crc8_absorb.
  assert (H : forall n x, is_u8 x -> is_u8 (Nat.iter n crc8_round x)).
  { induction n as [|n IH]; intros x Hx; cbn; [exact Hx|]. apply crc8_round_range, IH, Hx. }
  apply H. now apply lxor_u8.
Qed.

Lemma Crc8_from_range bytes acc :
  Forall is_u8 bytes -> is_u8 acc -> is_u8 (fold_left crc8_absorb bytes acc).
Proof.
  intros Hb. revert acc. induction Hb as [|b bytes Hb _ IH]; intros acc Ha; cbn; [exact Ha|].
  apply IH. now apply crc8_absorb_range.
Qed.

(** The outer loop, started at [byteIndex = i] with [k] bytes to go. *)
Lemma crc_outer_loop (pecbuffer : list Z) (n : Z) :
  Forall is_u8 pecbuffer -> n <= 255 -> n <= Z.of_nat (length pecbuffer) ->
  forall (k fuel : nat) (i acc : Z),
    0 <= i -> i + Z.of_nat k = n -> (k < fuel)%nat -> is_u8 acc ->
    for_u8 fuel i n (crc_byte pecbuffer) acc
    = fold_left crc8_absorb (firstn k (skipn (Z.to_nat i) pecbuffer)) acc.
Proof.
  intros Hbytes Hn Hlen.
  induction k as [|k IH]; intros fuel i acc Hi Hsum Hfuel Hacc.
  - destruct fuel as [|fuel]; [lia|]. cbn [for_u8 firstn fold_left].
    replace (i <? n) with false by (symmetry; apply Z.ltb_ge; lia). reflexivity.
  - destruct fuel as [|fuel]; [lia|]. cbn [for_u8].
    replace (i <? n) with true by (symmetry; apply Z.ltb_lt; lia).
    assert (Hin : (Z.to_nat i < length pecbuffer)%nat) by lia.
    destruct (skipn (Z.to_nat i) pecbuffer) as [|b rest] eqn:Hskip.
    { apply (f_equal (@length Z)) in Hskip. rewrite length_skipn in Hskip. cbn in Hskip. lia. }
    assert (Hnth : nth (Z.to_nat i) pecbuffer 0 = b).
    { rewrite <- (firstn_skipn (Z.to_nat i) pecbuffer) at 1.
      rewrite app_nth2 by (rewrite length_firstn; lia).
      rewrite length_firstn, Hskip.
      replace (Z.to_nat i - Nat.min (Z.to_nat i) (length pecbuffer))%nat with 0%nat by lia.
      reflexivity. }
    assert (Hb : is_u8 b).
    { rewrite List.Forall_forall in Hbytes. apply Hbytes. rewrite <- Hnth. apply nth_In. exact Hin. }
    assert (Hnext : skipn (Z.to_nat (i + 1)) pecbuffer = rest).
    { replace (Z.to_nat (i + 1)) with (1 + Z.to_nat i)%nat by lia.
      rewrite <- skipn_skipn, Hskip. reflexivity. }
    rewrite (u8_small (i + 1)) by (unfold is_u8; lia).
    unfold crc_byte at 2. rewrite Hnth, (crc_bits_absorb acc b Hacc Hb).
    rewrite IH; [|lia|lia|lia|now apply crc8_absorb_range].
    rewrite Hnext. reflexivity.
Qed.

Lemma CalculateCrc8_is_Crc8_aux (pecbuffer : list Z) (dataLength : Z) :
  Forall is_u8 pecbuffer ->
  0 <= dataLength <= 255 ->
  dataLength <= Z.of_nat (length pecbuffer) ->
  CalculateCrc8 pecbuffer dataLength = Crc8 (firstn (Z.to_nat dataLength) pecbuffer)
  /\ is_u8 (CalculateCrc8 pecbuffer dataLength).
Proof.
  intros Hbytes Hrange Hlen.
  assert (Heq : CalculateCrc8 pecbuffer dataLength
                = Crc8 (firstn (Z.to_nat dataLength) pecbuffer)).
  { unfold CalculateCrc8, Crc8.
    rewrite (crc_outer_loop pecbuffer dataLength Hbytes) with (k := Z.to_nat dataLength);
      try lia; [reflexivity | unfold is_u8; lia]. }
  split; [exact Heq|].
  rewrite Heq. apply Crc8_from_range; [|unfold is_u8; lia].
  rewrite List.Forall_forall in *. intros x Hx. apply Hbytes.
  rewrite <- (firstn_skipn (Z.to_nat dataLength) pecbuffer). apply in_or_app. now left.
Qed.

(** C1. [CalculateCrc8] over the first [dataLength] bytes of a buffer is
    the bit-serial CRC-8 of the design document (accumulator 0, each byte
    exclusive-ored in, eight shift rounds with polynomial 0x07 on a set
    high bit, all within 8 bits); the frame of five zero bytes gives 0. *)
Theorem CalculateCrc8_is_Crc8 (pecbuffer : list Z) (dataLength : Z) :
  Forall is_u8 pecbuffer ->
  0 <= dataLength <= 255 ->
  dataLength <= Z.of_nat (length pecbuffer) ->
  CalculateCrc8 pecbuffer dataLength = Crc8 (firstn (Z.to_nat dataLength) pecbuffer)
  /\ is_u8 (CalculateCrc8 pecbuffer dataLength)
  /\ CalculateCrc8 [0; 0; 0; 0; 0] 5 = 0x00.
Proof.
  intros Hbytes Hrange Hlen.
  destruct (CalculateCrc8_is_Crc8_aux pecbuffer dataLength Hbytes Hrange Hlen) as [Heq Hr].
  split; [exact Heq|]. split; [exact Hr | reflexivity].
Qed.

Lemma CalculateCrc8_is_Crc8_witness :
  CalculateCrc8 (pec_frame 0x41 0x44) 5 = Crc8 (pec_frame 0x41 0x44).
Proof.
  apply (CalculateCrc8_is_Crc8 (pec_frame 0x41 0x44) 5).
  - repeat constructor; vm_compute; intuition congruence.
  - lia.
  - simpl. lia.
Defined.

(** * Properties of the sensor read *)

(** Only the cells below [dataLength] matter to [CalculateCrc8]. *)
Lemma CalculateCrc8_prefix (l1 l2 : list Z) (n : Z) :
  (forall i, 0 <= i < n -> nth (Z.to_nat i) l1 0 = nth (Z.to_nat i) l2 0) ->
  CalculateCrc8 l1 n = CalculateCrc8 l2 n.
Proof.
  intros Hagree. unfold CalculateCrc8.
  assert (H : forall fuel i acc, 0 <= i ->
             for_u8 fuel i n (crc_byte l1) acc = for_u8 fuel i n (crc_byte l2) acc).
  { induction fuel as [|fuel IH]; intros i acc Hi; cbn [for_u8]; [reflexivity|].
    destruct (i <? n) eqn:Hlt; [|reflexivity].
    apply Z.ltb_lt in Hlt. unfold crc_byte at 2 4. rewrite Hagree by lia.
    apply IH. pose proof (u8_range (i + 1)) as Hr. unfold is_u8 in Hr. lia. }
  apply H. lia.
Qed.

Lemma pec_frame_bytes lsb msb : is_u8 lsb -> is_u8 msb -> Forall is_u8 (pec_frame lsb msb).
Proof.
  intros Hl Hm. unfold pec_frame.
  repeat (constructor; [first [exact Hl | exact Hm | apply u8_range]|]).
  constructor.
Qed.

(** The PEC the function computes is the design document's CRC over
    write address, register, read address, low byte, high byte. *)
Lemma calcpec_is_Crc8 lsb msb :
  is_u8 lsb -> is_u8 msb ->
  CalculateCrc8 (pec_frame lsb msb ++ [0]) 5 = Crc8 [0xB4; 0x07; 0xB5; lsb; msb].
Proof.
  intros Hl Hm.
  rewrite (CalculateCrc8_prefix _ (pec_frame lsb msb)).
  - destruct (CalculateCrc8_is_Crc8_aux (pec_frame lsb msb) 5) as [Heq _].
    + now apply pec_frame_bytes.
    + lia.
    + cbn. lia.
    + exact Heq.
  - intros i Hi. rewrite app_nth1; [reflexivity|]. cbn. lia.
Qed.

(** C2. When the transfer completed and the CRC-8 over the frame (write
    address, register, read address, low data byte, high data byte)
    differs from the PEC byte received, [MLX90614ReadTemp] returns the
    failure code and leaves both outputs as they were. *)
Theorem MLX90614ReadTemp_rejects_bad_pec
    (bus : list i2c_cmd -> i2c_reply) (out : temp_out) :
  let reply := bus read_temp_cmds in
  i2c_ret reply = ESP_OK ->
  is_u8 (rx_first reply) -> is_u8 (rx_second reply) ->
  Crc8 [0xB4; 0x07; 0xB5; rx_first reply; rx_second reply] <> rx_third reply ->
  MLX90614ReadTemp bus out = (RETURN_NUM_MLX90614_READFAIL, out).
Proof.
  intros reply Hret Hl Hm Hpec. unfold MLX90614ReadTemp. fold reply.
  rewrite Hret. cbn [negb Z.eqb ESP_OK].
  rewrite (calcpec_is_Crc8 _ _ Hl Hm).
  destruct (Z.eqb_spec (Crc8 [0xB4; 0x07; 0xB5; rx_first reply; rx_second reply])
              (rx_third reply)) as [Heq|Hne]; [contradiction|reflexivity].
Qed.

Lemma MLX90614ReadTemp_rejects_bad_pec_witness :
  MLX90614ReadTemp (Sample.sensor ESP_OK 0x41 0x44 0x00) Sample.out_nan
  = (RETURN_NUM_MLX90614_READFAIL, Sample.out_nan).
Proof.
  apply (MLX90614ReadTemp_rejects_bad_pec (Sample.sensor ESP_OK 0x41 0x44 0x00) Sample.out_nan).
  - reflexivity.
  - vm_compute. intuition congruence.
  - vm_compute. intuition congruence.
  - vm_compute. congruence.
Defined.

(** The header's literals are the binary32 numbers nearest to the
    decimals written there. *)
Lemma header_literals :
  SCALE_FACTOR = f32_literal 2 100
  /\ KELVIN_OFFSET = f32_literal 27315 100
  /\ FAHRENHEIT_OFFSET = f32_literal 32 1
  /\ FAHRENHEIT_MULTIPLIER = f32_literal 18 10.
Proof. repeat split; vm_compute; reflexivity. Qed.

Lemma f32_nearb_near x exact eps : f32_nearb x exact eps = true -> f32_near x exact eps.
Proof.
  unfold f32_nearb, f32_near. destruct (f32_value x) as [q|]; [|discriminate].
  intros H. apply andb_true_iff in H as [H1 H2].
  exists q. split; [reflexivity|]. split; now apply Qle_bool_iff.
Qed.

(** All 65536 raw values, one by one. *)
Lemma conversion_ok_all :
  forallb (fun msb => forallb (fun lsb => conversion_ok lsb msb) (map Z.of_nat (seq 0 256)))
          (map Z.of_nat (seq 0 256)) = true.
Proof. vm_compute. reflexivity. Qed.

Lemma conversion_ok_bytes lsb msb : is_u8 lsb -> is_u8 msb -> conversion_ok lsb msb = true.
Proof.
  intros Hl Hm.
  pose proof (u8_all _ conversion_ok_all msb Hm) as Hrow. cbv beta in Hrow.
  exact (u8_all _ Hrow lsb Hl).
Qed.

(** C3, amended.  On a completed transfer with a matching PEC the function
    returns the success code and writes both outputs.  The raw value is
    [msb * 256 + lsb], held exactly; the conversion runs in single
    precision, each operation rounded: Kelvin is [raw * 0.02f], Celsius
    is Kelvin minus [273.15f], Fahrenheit is [1.8f] times that Celsius
    plus [32.0f].  The results are finite and lie within 1/10000, 1/8000
    and 1/3000 of the exact [raw * 0.02], [Kelvin - 273.15] and
    [1.8 * Celsius + 32].  For two zero bytes Celsius is the binary32
    number nearest to -273.15, which is -8950579 / 2^15, and Fahrenheit
    is -15062466 / 2^15. *)
Theorem MLX90614ReadTemp_converts
    (bus : list i2c_cmd -> i2c_reply) (out : temp_out) :
  let reply := bus read_temp_cmds in
  let lsb := rx_first reply in
  let msb := rx_second reply in
  let raw := raw_of_bytes lsb msb in
  i2c_ret reply = ESP_OK ->
  is_u8 lsb -> is_u8 msb ->
  rx_third reply = Crc8 [0xB4; 0x07; 0xB5; lsb; msb] ->
  MLX90614ReadTemp bus out
  = (RETURN_NUM_MLX90614_READSUCCESSFULLY,
     {| tempcelsius := f32_sub (f32_mul (f32_of_int raw) SCALE_FACTOR) KELVIN_OFFSET;
        tempfahrenheit :=
          f32_add (f32_mul FAHRENHEIT_MULTIPLIER
                     (f32_sub (f32_mul (f32_of_int raw) SCALE_FACTOR) KELVIN_OFFSET))
                  FAHRENHEIT_OFFSET |})
  /\ f32_near (f32_of_int raw) (inject_Z raw) 0
  /\ f32_near (f32_mul (f32_of_int raw) SCALE_FACTOR) (kelvin_exact raw) (1 # 10000)
  /\ f32_near (tempcelsius (snd (MLX90614ReadTemp bus out))) (celsius_exact raw) (1 # 8000)
  /\ f32_near (tempfahrenheit (snd (MLX90614ReadTemp bus out))) (fahrenheit_exact raw) (1 # 3000)
  /\ MLX90614ReadTemp (Sample.sensor ESP_OK 0 0 6) out
     = (RETURN_NUM_MLX90614_READSUCCESSFULLY,
        {| tempcelsius := f32_literal (-27315) 100;
           tempfahrenheit := S754_finite true 15062466 (-15) |})
  /\ f32_value (f32_literal (-27315) 100) = Some (-8950579 # 32768)%Q.
Proof.
  intros reply lsb msb raw Hret Hl Hm Hpec.
  pose proof (conversion_ok_bytes lsb msb Hl Hm) as Hok.
  unfold conversion_ok in Hok. fold raw in Hok.
  repeat (apply andb_true_iff in Hok as [Hok ?]).
  apply Z.eqb_eq in Hok.
  assert (Hrun : MLX90614ReadTemp bus out
                 = (RETURN_NUM_MLX90614_READSUCCESSFULLY,
                    {| tempcelsius := celsius_of raw; tempfahrenheit := fahrenheit_of raw |})).
  { unfold MLX90614ReadTemp. fold reply. rewrite Hret. change (negb (ESP_OK =? ESP_OK)) with false. cbv iota.
    fold lsb msb. rewrite (calcpec_is_Crc8 _ _ Hl Hm), <- Hpec, Z.eqb_refl. cbv iota. change (negb true) with false. cbv iota.
    fold (rawtemp_of lsb msb). rewrite Hok. reflexivity. }
  split; [exact Hrun|]. rewrite Hrun. change (snd (?a, ?b)) with b.  
   cbn [tempcelsius tempfahrenheit].
  split; [now apply f32_nearb_near|].
  split; [now apply f32_nearb_near|].
  split; [now apply f32_nearb_near|].
  split; [now apply f32_nearb_near|].
  split; vm_compute; reflexivity.
Qed.

Lemma MLX90614ReadTemp_converts_witness :
  fst (MLX90614ReadTemp (Sample.sensor ESP_OK 0x41 0x44 0x93) Sample.out_nan)
  = RETURN_NUM_MLX90614_READSUCCESSFULLY
  /\ f32_near (tempcelsius (snd (MLX90614ReadTemp (Sample.sensor ESP_OK 0x41 0x44 0x93)
                                   Sample.out_nan)))
              (celsius_exact 17473) (1 # 8000).
Proof.
  destruct (MLX90614ReadTemp_converts (Sample.sensor ESP_OK 0x41 0x44 0x93) Sample.out_nan)
    as (Hrun & _ & _ & Hc & _).
  - reflexivity.
  - vm_compute. intuition congruence.
  - vm_compute. intuition congruence.
  - vm_compute. reflexivity.
  - split; [rewrite Hrun; reflexivity | exact Hc].
Defined.

(** C3 as stated fails at two zero bytes: the read succeeds, but neither
    output is the number the claim names.  Celsius is -8950579 / 2^15,
    not -273.15; Fahrenheit is -15062466 / 2^15, which is neither -459.67
    nor the binary32 number nearest to it. *)
Lemma MLX90614ReadTemp_zero_not_exact :
  fst Sample.zero_read = RETURN_NUM_MLX90614_READSUCCESSFULLY
  /\ f32_value (tempcelsius (snd Sample.zero_read)) = Some (-8950579 # 32768)%Q
  /\ ~ (-8950579 # 32768 == -27315 # 100)%Q
  /\ f32_value (tempfahrenheit (snd Sample.zero_read)) = Some (-15062466 # 32768)%Q
  /\ ~ (-15062466 # 32768 == -45967 # 100)%Q
  /\ tempfahrenheit (snd Sample.zero_read) <> f32_literal (-45967) 100.
Proof.
  split; [reflexivity|]. split; [reflexivity|]. split; [unfold Qeq; cbn; lia|].
  split; [reflexivity|]. split; [unfold Qeq; cbn; lia|].
  vm_compute. discriminate.
Qed.

(** * Properties of the storage handler *)

Ltac run_monad :=
  unfold bind, get, ret, emit, set_files, set_open_streams, set_spi_claimed,
    set_mounted, printf;
  cbn [fst snd spi_claimed fat_mounted card files open_streams console trace].

Lemma fopen_refused env path mode w :
  can_open env path mode w = false ->
  fopen env path mode w
  = (None, {| spi_claimed := spi_claimed w; fat_mounted := fat_mounted w; card := card w;
              files := files w; open_streams := open_streams w; console := console w;
              trace := trace w ++ [EvFopen path mode false] |}).
Proof. intros H. unfold fopen. run_monad. rewrite H. reflexivity. Qed.

Lemma fopen_granted env path mode w :
  can_open env path mode w = true ->
  fopen env path mode w
  = (Some {| f_path := path; f_mode := mode; f_pos := 0 |},
     {| spi_claimed := spi_claimed w; fat_mounted := fat_mounted w; card := card w;
        files := opened_files path mode (files w); open_streams := S (open_streams w);
        console := console w; trace := trace w ++ [EvFopen path mode true] |}).
Proof. intros H. unfold fopen. run_monad. rewrite H. reflexivity. Qed.

Lemma FileExists_absent env path w :
  can_open env path ModeR w = false ->
  FileExists env path w
  = (false, {| spi_claimed := spi_claimed w; fat_mounted := fat_mounted w; card := card w;
               files := files w; open_streams := open_streams w; console := console w;
               trace := trace w ++ [EvFopen path ModeR false] |}).
Proof. intros H. unfold FileExists, bind at 1. rewrite (fopen_refused _ _ _ _ H). reflexivity. Qed.

Lemma FileExists_present env path w :
  can_open env path ModeR w = true ->
  FileExists env path w
  = (true, {| spi_claimed := spi_claimed w; fat_mounted := fat_mounted w; card := card w;
              files := files w; open_streams := open_streams w; console := console w;
              trace := trace w ++ [EvFopen path ModeR true; EvFclose path] |}).
Proof.
  intros H. unfold FileExists, bind at 1. rewrite (fopen_granted _ _ _ _ H).
  unfold fclose. run_monad. cbn [opened_files Nat.pred f_path]. rewrite <- app_assoc. reflexivity.
Qed.

Lemma CreateFile_refused env path w :
  can_open env path ModeW w = false ->
  CreateFile env path w
  = (false, {| spi_claimed := spi_claimed w; fat_mounted := fat_mounted w; card := card w;
               files := files w; open_streams := open_streams w; console := console w;
               trace := trace w ++ [EvFopen path ModeW false] |}).
Proof. intros H. unfold CreateFile, bind at 1. rewrite (fopen_refused _ _ _ _ H). reflexivity. Qed.

Lemma CreateFile_done env path w :
  can_open env path ModeW w = true ->
  CreateFile env path w
  = (true, {| spi_claimed := spi_claimed w; fat_mounted := fat_mounted w; card := card w;
              files := <[path := EmptyString]> (files w); open_streams := open_streams w;
              console := console w;
              trace := trace w ++ [EvFopen path ModeW true; EvFclose path] |}).
Proof.
  intros H. unfold CreateFile, bind at 1. rewrite (fopen_granted _ _ _ _ H).
  unfold fclose. run_monad. cbn [opened_files Nat.pred f_path]. rewrite <- app_assoc. reflexivity.
Qed.

Lemma opened_then_written path text (fs : gmap string string) :
  <[path := (default EmptyString (opened_files path ModeA fs !! path) ++ text)%string]>
    (opened_files path ModeA fs)
  = appended path text fs.
Proof.
  unfold appended, opened_files. destruct (fs !! path) as [old|] eqn:Hold.
  - rewrite Hold. reflexivity.
  - rewrite lookup_insert_eq, insert_insert_eq. reflexivity.
Qed.

Lemma log_append_refused env path tag message w :
  can_open env path ModeA w = false ->
  log_append env path tag message w
  = (RETURN_NUM_SDCARD_APPENDFAIL,
     {| spi_claimed := spi_claimed w; fat_mounted := fat_mounted w; card := card w;
        files := files w; open_streams := open_streams w; console := console w;
        trace := trace w ++ [EvFopen path ModeA false] |}).
Proof. intros H. unfold log_append, bind at 1. rewrite (fopen_refused _ _ _ _ H). reflexivity. Qed.

Lemma log_append_done env path tag message w :
  can_open env path ModeA w = true ->
  log_append env path tag message w
  = (RETURN_NUM_SDCARD_APPENDSUCCESSFULLY,
     {| spi_claimed := spi_claimed w; fat_mounted := fat_mounted w; card := card w;
        files := appended path (tag ++ ": " ++ message ++ nl) (files w);
        open_streams := open_streams w; console := console w;
        trace := trace w ++ [EvFopen path ModeA true; EvFclose path] |}).
Proof.
  intros H. unfold log_append, bind at 1. rewrite (fopen_granted _ _ _ _ H).
  unfold fclose, fprintf. run_monad. cbn [Nat.pred f_path].
  rewrite opened_then_written, <- app_assoc. reflexivity.
Qed.

Lemma AppendFile_refused env path data w :
  can_open env path ModeA w = false ->
  AppendFile env path data w
  = (RETURN_NUM_SDCARD_APPENDFAIL,
     {| spi_claimed := spi_claimed w; fat_mounted := fat_mounted w; card := card w;
        files := files w; open_streams := open_streams w; console := console w;
        trace := trace w ++ [EvFopen path ModeA false] |}).
Proof. intros H. unfold AppendFile, bind at 1. rewrite (fopen_refused _ _ _ _ H). reflexivity. Qed.

Lemma AppendFile_done env path data w :
  can_open env path ModeA w = true ->
  AppendFile env path data w
  = (RETURN_NUM_SDCARD_APPENDSUCCESSFULLY,
     {| spi_claimed := spi_claimed w; fat_mounted := fat_mounted w; card := card w;
        files := appended path (data ++ nl) (files w);
        open_streams := open_streams w; console := console w;
        trace := trace w ++ [EvFopen path ModeA true; EvFclose path] |}).
Proof.
  intros H. unfold AppendFile, bind at 1. rewrite (fopen_granted _ _ _ _ H).
  unfold fclose, fprintf. run_monad. cbn [Nat.pred f_path].
  rewrite opened_then_written, <- app_assoc. reflexivity.
Qed.

Lemma can_open_absent env path w :
  files w !! path = None -> can_open env path ModeR w = false.
Proof.
  intros H. unfold can_open. rewrite H.
  rewrite (bool_decide_eq_false_2 (is_Some None)) by (intros [? ?]; discriminate).
  apply andb_false_r.
Qed.

(** C7. [FileExists] changes no file and nothing else of the card, the
    bus or the open streams; asked again at once it answers the same; and
    its answer is [false] exactly when the read-only [fopen] fails. *)
Theorem FileExists_is_a_probe (env : Env) (StringPath : string) (w : World) :
  files (snd (FileExists env StringPath w)) = files w
  /\ spi_claimed (snd (FileExists env StringPath w)) = spi_claimed w
  /\ fat_mounted (snd (FileExists env StringPath w)) = fat_mounted w
  /\ card (snd (FileExists env StringPath w)) = card w
  /\ open_streams (snd (FileExists env StringPath w)) = open_streams w
  /\ console (snd (FileExists env StringPath w)) = console w
  /\ fst (FileExists env StringPath (snd (FileExists env StringPath w)))
     = fst (FileExists env StringPath w)
  /\ (fst (FileExists env StringPath w) = false
      <-> fst (fopen env StringPath ModeR w) = None).
Proof.
  destruct (can_open env StringPath ModeR w) eqn:Hopen.
  - rewrite (FileExists_present _ _ _ Hopen), (fopen_granted _ _ _ _ Hopen). cbn [fst snd].
    rewrite FileExists_present by exact Hopen.
    cbn [fst snd files spi_claimed fat_mounted card open_streams console].
    repeat split; discriminate.
  - rewrite (FileExists_absent _ _ _ Hopen), (fopen_refused _ _ _ _ Hopen). cbn [fst snd].
    rewrite FileExists_absent by exact Hopen.
    cbn [fst snd files spi_claimed fat_mounted card open_streams console].
    repeat split; reflexivity.
Qed.

(** C4, amended.  On a path with no file, [AppendFile] creates the file
    holding the data and a newline and returns the append-success code
    whenever the append-mode [fopen] succeeds; it returns the
    append-failure code, creating nothing, only when that [fopen] fails. *)
Theorem AppendFile_on_missing_file (env : Env) (StringPath Data : string) (w : World) :
  files w !! StringPath = None ->
  AppendFile env StringPath Data w
  = if can_open env StringPath ModeA w
    then (RETURN_NUM_SDCARD_APPENDSUCCESSFULLY,
          {| spi_claimed := spi_claimed w; fat_mounted := fat_mounted w; card := card w;
             files := <[StringPath := (Data ++ nl)%string]> (files w);
             open_streams := open_streams w; console := console w;
             trace := trace w ++ [EvFopen StringPath ModeA true; EvFclose StringPath] |})
    else (RETURN_NUM_SDCARD_APPENDFAIL,
          {| spi_claimed := spi_claimed w; fat_mounted := fat_mounted w; card := card w;
             files := files w; open_streams := open_streams w; console := console w;
             trace := trace w ++ [EvFopen StringPath ModeA false] |}).
Proof.
  intros Habsent. destruct (can_open env StringPath ModeA w) eqn:Hopen.
  - rewrite (AppendFile_done _ _ _ _ Hopen). unfold appended. rewrite Habsent. reflexivity.
  - apply AppendFile_refused, Hopen.
Qed.

Lemma AppendFile_on_missing_file_witness :
  fst (AppendFile Sample.env_ok Sample.mlx_path "celsius=76.31" (Sample.world_on ∅))
  = RETURN_NUM_SDCARD_APPENDSUCCESSFULLY.
Proof.
  rewrite (AppendFile_on_missing_file Sample.env_ok Sample.mlx_path "celsius=76.31"
             (Sample.world_on ∅)).
  - reflexivity.
  - reflexivity.
Defined.

(** C4 as stated fails: on a mounted card without the file, [AppendFile]
    returns the append-success code, not the failure code, and the file
    is there afterwards. *)
Lemma AppendFile_creates_the_file :
  files (Sample.world_on ∅) !! Sample.mlx_path = None
  /\ fst (AppendFile Sample.env_ok Sample.mlx_path "celsius=76.31" (Sample.world_on ∅))
     = RETURN_NUM_SDCARD_APPENDSUCCESSFULLY
  /\ fst (AppendFile Sample.env_ok Sample.mlx_path "celsius=76.31" (Sample.world_on ∅))
     <> RETURN_NUM_SDCARD_APPENDFAIL
  /\ files (snd (AppendFile Sample.env_ok Sample.mlx_path "celsius=76.31" (Sample.world_on ∅)))
       !! Sample.mlx_path
     = Some ("celsius=76.31" ++ nl)%string.
Proof.
  split; [reflexivity|]. split; [reflexivity|]. split; [vm_compute; discriminate|].
  vm_compute. reflexivity.
Qed.

(** C8. With the log file absent, [LogToSDCard] creates it with
    [CreateFile] and then appends the line: when the create succeeds, the
    append-mode open succeeds too, the function returns the
    append-success code, and the file holds exactly the tag, a colon and
    a space, the message and a newline. *)
Theorem LogToSDCard_creates_missing_log (env : Env) (tag message : string) (w : World) :
  files w !! Sample.log_path = None ->
  fst (CreateFile env Sample.log_path w) = true ->
  LogToSDCard env tag message w
  = (RETURN_NUM_SDCARD_APPENDSUCCESSFULLY,
     {| spi_claimed := spi_claimed w; fat_mounted := fat_mounted w; card := card w;
        files := <[Sample.log_path := (tag ++ ": " ++ message ++ nl)%string]> (files w);
        open_streams := open_streams w; console := console w;
        trace := trace w ++ [EvFopen Sample.log_path ModeR false;
                             EvFopen Sample.log_path ModeW true;
                             EvFclose Sample.log_path;
                             EvFopen Sample.log_path ModeA true;
                             EvFclose Sample.log_path] |}).
Proof.
  intros Habsent Hcreate.
  assert (Hw : can_open env Sample.log_path ModeW w = true).
  { destruct (can_open env Sample.log_path ModeW w) eqn:Hopen; [reflexivity|].
    rewrite (CreateFile_refused _ _ _ Hopen) in Hcreate. discriminate. }
  unfold LogToSDCard. change (MOUNT_POINT ++ "/SDCARD.txt")%string with Sample.log_path.
  unfold bind at 1. rewrite (FileExists_absent _ _ _ (can_open_absent _ _ _ Habsent)).
  cbn [negb]. unfold bind at 1. rewrite CreateFile_done by exact Hw.
  cbn [negb]. rewrite log_append_done by exact Hw.
  cbn [spi_claimed fat_mounted card files open_streams console trace].
  unfold appended. rewrite lookup_insert_eq, insert_insert_eq. cbn [default String.append].
  rewrite <- !app_assoc. reflexivity.
Qed.

Lemma LogToSDCard_creates_missing_log_witness :
  fst (LogToSDCard Sample.env_ok SDTAG "Initializing SD card..." (Sample.world_on ∅))
  = RETURN_NUM_SDCARD_APPENDSUCCESSFULLY.
Proof.
  rewrite (LogToSDCard_creates_missing_log Sample.env_ok SDTAG "Initializing SD card..."
             (Sample.world_on ∅)).
  - reflexivity.
  - reflexivity.
  - reflexivity.
Defined.

(** ** Writing and reading back *)

Lemma WriteFile_refused env path w :
  can_open env path ModeW w = false ->
  WriteFile env path w
  = (RETURN_NUM_SDCARD_WRITEFAIL,
     {| spi_claimed := spi_claimed w; fat_mounted := fat_mounted w; card := card w;
        files := files w; open_streams := open_streams w; console := console w;
        trace := trace w ++ [EvFopen path ModeW false] |}).
Proof. intros H. unfold WriteFile, bind at 1. rewrite (fopen_refused _ _ _ _ H). reflexivity. Qed.

Lemma WriteFile_done env path w :
  can_open env path ModeW w = true ->
  WriteFile env path w
  = (RETURN_NUM_SDCARD_WRITESUCCESSFULL,
     {| spi_claimed := spi_claimed w; fat_mounted := fat_mounted w; card := card w;
        files := <[path := default_text]> (files w);
        open_streams := open_streams w; console := console w;
        trace := trace w ++ [EvFopen path ModeW true; EvFclose path] |}).
Proof.
  intros H. unfold WriteFile, bind at 1. rewrite (fopen_granted _ _ _ _ H).
  unfold fclose, fprintf. run_monad. cbn [Nat.pred f_path opened_files].
  rewrite lookup_insert_eq, insert_insert_eq. cbn [default].
  rewrite lookup_insert_eq, insert_insert_eq. cbn [default].
  rewrite <- app_assoc. reflexivity.
Qed.

Lemma string_drop_add a b s : string_drop (a + b) s = string_drop b (string_drop a s).
Proof.
  revert s. induction a as [|a IH]; intros s; cbn [string_drop Nat.add]; [reflexivity|].
  destruct s as [|c s]; [destruct b; reflexivity | apply IH].
Qed.

Lemma take_line_drop n s :
  (take_line n s ++ string_drop (String.length (take_line n s)) s)%string = s.
Proof.
  revert s. induction n as [|n IH]; intros s; [destruct s; reflexivity|].
  destruct s as [|c s]; [reflexivity|]. cbn [take_line].
  destruct (Ascii.eqb c (ascii_of_nat 10)).
  - reflexivity.
  - change (String c (take_line n s
                      ++ string_drop (String.length (take_line n s)) s)%string = String c s).
    f_equal. apply IH.
Qed.

Lemma take_line_empty n s : take_line (S n) s = EmptyString -> s = EmptyString.
Proof. destruct s as [|c s]; [reflexivity | discriminate]. Qed.

Lemma string_drop_length n s : String.length (string_drop n s) = (String.length s - n)%nat.
Proof.
  revert s. induction n as [|n IH]; intros s; cbn [string_drop]; [lia|].
  destruct s as [|c s]; cbn [String.length]; [reflexivity | apply IH].
Qed.

Lemma string_length_app (a b : string) :
  String.length (a ++ b) = (String.length a + String.length b)%nat.
Proof. induction a as [|c a IH]; simpl; [reflexivity | now rewrite IH]. Qed.

Lemma string_app_nil_r (a : string) : (a ++ EmptyString)%string = a.
Proof.
  induction a as [|c a IH]; [reflexivity|].
  change (String c (a ++ EmptyString)%string = String c a). f_equal. exact IH.
Qed.

(** With more turns than characters the pieces make up the whole text. *)
Lemma fgets_pieces_whole fuel s :
  (String.length s < fuel)%nat -> String.concat EmptyString (fgets_pieces fuel s) = s.
Proof.
  revert s. induction fuel as [|fuel IH]; intros s Hlen; [lia|]. cbn [fgets_pieces].
  destruct (take_line 127 s) as [|c line] eqn:Hline.
  - apply take_line_empty in Hline. subst s. reflexivity.
  - pose proof (take_line_drop 127 s) as Hsplit. rewrite Hline in Hsplit.
    set (rest := string_drop (String.length (String c line)) s) in *.
    assert (Hrest : (String.length rest < fuel)%nat).
    { apply (f_equal String.length) in Hsplit. rewrite string_length_app in Hsplit.
      cbn [String.length] in Hsplit. lia. }
    specialize (IH rest Hrest).
    destruct (fgets_pieces fuel rest) as [|p ps] eqn:Hps.
    + cbn [String.concat] in *. rewrite <- Hsplit, <- IH.
      symmetry. apply string_app_nil_r.
    + change (String.concat EmptyString (String c line :: p :: ps))
        with (String c line ++ EmptyString ++ String.concat EmptyString (p :: ps))%string.
      rewrite IH. cbn [String.append]. exact Hsplit.
Qed.

Lemma read_loop_prints fuel f w :
  read_loop fuel f w
  = (tt, {| spi_claimed := spi_claimed w; fat_mounted := fat_mounted w; card := card w;
            files := files w; open_streams := open_streams w;
            console := console w
                       ++ fgets_pieces fuel
                            (string_drop (f_pos f) (default EmptyString (files w !! f_path f)));
            trace := trace w |}).
Proof.
  revert f w. induction fuel as [|fuel IH]; intros f w.
  - cbn [read_loop fgets_pieces]. unfold ret. rewrite app_nil_r. destruct w; reflexivity.
  - cbn [read_loop fgets_pieces]. unfold fgets. unfold bind at 1. unfold bind at 1.
    unfold get at 1. cbn [Nat.pred].
    destruct (take_line 127 (string_drop (f_pos f) (default EmptyString (files w !! f_path f))))
      as [|c line] eqn:Hline.
    + unfold ret. cbn [fst]. rewrite app_nil_r. destruct w; reflexivity.
    + unfold ret at 1. cbn [fst snd]. unfold bind at 1, printf at 1. rewrite IH.
      cbn [spi_claimed fat_mounted card files open_streams console trace f_path f_pos].
      rewrite string_drop_add, <- app_assoc. reflexivity.
Qed.

Lemma ReadFile_refused env path w :
  can_open env path ModeR w = false ->
  ReadFile env path w
  = (RETURN_NUM_SDCARD_READFAIL,
     {| spi_claimed := spi_claimed w; fat_mounted := fat_mounted w; card := card w;
        files := files w; open_streams := open_streams w; console := console w;
        trace := trace w ++ [EvFopen path ModeR false] |}).
Proof. intros H. unfold ReadFile, bind at 1. rewrite (fopen_refused _ _ _ _ H). reflexivity. Qed.

Lemma ReadFile_done env path w :
  can_open env path ModeR w = true ->
  ReadFile env path w
  = (RETURN_NUM_SDCARD_READSUCCESSFULL,
     {| spi_claimed := spi_claimed w; fat_mounted := fat_mounted w; card := card w;
        files := files w; open_streams := open_streams w;
        console := console w
                   ++ fgets_pieces (S (String.length (default EmptyString (files w !! path))))
                        (default EmptyString (files w !! path));
        trace := trace w ++ [EvFopen path ModeR true; EvFclose path] |}).
Proof.
  intros H. unfold ReadFile, bind at 1. rewrite (fopen_granted _ _ _ _ H).
  unfold bind at 1, get at 1. unfold bind at 1. rewrite read_loop_prints.
  unfold fclose. run_monad. cbn [Nat.pred f_path f_pos opened_files string_drop].
  rewrite <- app_assoc. reflexivity.
Qed.

(** [ReadFile] prints the whole file, in pieces that put together are its
    text, and leaves the card as it was. *)
Lemma ReadFile_prints_the_file env path w :
  can_open env path ModeR w = true ->
  exists pieces,
    console (snd (ReadFile env path w)) = console w ++ pieces
    /\ String.concat EmptyString pieces = default EmptyString (files w !! path)
    /\ fst (ReadFile env path w) = RETURN_NUM_SDCARD_READSUCCESSFULL
    /\ files (snd (ReadFile env path w)) = files w
    /\ open_streams (snd (ReadFile env path w)) = open_streams w.
Proof.
  intros H. rewrite (ReadFile_done _ _ _ H). eexists. split; [reflexivity|].
  split; [apply fgets_pieces_whole; lia|]. repeat split.
Qed.

(** C5, amended.  [WriteFile] takes a path and no content: when its
    truncating [fopen] succeeds it leaves in the file exactly the two
    fixed lines, whatever was there, and returns the write-success code;
    [ReadFile] on that path then prints exactly these two lines, returns
    the read-success code and changes nothing on the card. *)
Theorem WriteFile_then_ReadFile (env : Env) (StringPath : string) (w : World) :
  can_open env StringPath ModeW w = true ->
  fst (WriteFile env StringPath w) = RETURN_NUM_SDCARD_WRITESUCCESSFULL
  /\ files (snd (WriteFile env StringPath w))
     = <[StringPath := ("sectr!" ++ nl ++ "CONSOLE." ++ nl)%string]> (files w)
  /\ fst (ReadFile env StringPath (snd (WriteFile env StringPath w)))
     = RETURN_NUM_SDCARD_READSUCCESSFULL
  /\ console (snd (ReadFile env StringPath (snd (WriteFile env StringPath w))))
     = console w ++ [("sectr!" ++ nl)%string; ("CONSOLE." ++ nl)%string]
  /\ files (snd (ReadFile env StringPath (snd (WriteFile env StringPath w))))
     = files (snd (WriteFile env StringPath w))
  /\ open_streams (snd (ReadFile env StringPath (snd (WriteFile env StringPath w))))
     = open_streams w.
Proof.
  intros Hopen. rewrite (WriteFile_done _ _ _ Hopen). cbn [fst snd files].
  split; [reflexivity|]. split; [reflexivity|].
  rewrite ReadFile_done.
  - cbn [fst snd files console open_streams]. rewrite lookup_insert_eq. cbn [default].
    repeat split.
  - unfold can_open in *. cbn [fat_mounted open_streams files].
    rewrite lookup_insert_eq.
    rewrite (bool_decide_eq_true_2 (is_Some (Some default_text))) by (eexists; reflexivity).
    apply andb_true_iff in Hopen as [Hopen _]. rewrite Hopen. reflexivity.
Qed.

Lemma WriteFile_then_ReadFile_witness :
  console (snd (ReadFile Sample.env_ok Sample.mlx_path
                  (snd (WriteFile Sample.env_ok Sample.mlx_path (Sample.world_on ∅)))))
  = [("sectr!" ++ nl)%string; ("CONSOLE." ++ nl)%string].
Proof.
  destruct (WriteFile_then_ReadFile Sample.env_ok Sample.mlx_path (Sample.world_on ∅))
    as (_ & _ & _ & Hconsole & _).
  - reflexivity.
  - exact Hconsole.
Defined.

(** C5 as stated fails: [WriteFile] has no content argument, so no call
    of it stores the text X; what [ReadFile] prints after it is the two
    fixed lines, not the single line X. *)
Lemma WriteFile_does_not_store_X :
  fst (WriteFile Sample.env_ok Sample.mlx_path (Sample.world_on ∅))
  = RETURN_NUM_SDCARD_WRITESUCCESSFULL
  /\ files (snd (WriteFile Sample.env_ok Sample.mlx_path (Sample.world_on ∅)))
       !! Sample.mlx_path <> Some "X"
  /\ console (snd (ReadFile Sample.env_ok Sample.mlx_path
                     (snd (WriteFile Sample.env_ok Sample.mlx_path (Sample.world_on ∅)))))
     <> ["X"].
Proof.
  split; [reflexivity|]. split; vm_compute; discriminate.
Qed.

(** ** Mounting and unmounting *)

Lemma can_open_mounted env path mode w : can_open env path mode w = true -> fat_mounted w = true.
Proof.
  unfold can_open. intros H. apply andb_true_iff in H as [H _].
  apply andb_true_iff in H as [H _]. exact H.
Qed.

Lemma files_only_intro w w' evs :
  spi_claimed w' = spi_claimed w -> fat_mounted w' = fat_mounted w -> card w' = card w ->
  open_streams w' = open_streams w -> console w' = console w ->
  (fat_mounted w = true \/ files w' = files w) ->
  trace w' = trace w ++ evs -> Forall file_event evs ->
  files_only w w'.
Proof.
  intros ? ? ? ? ? Hfiles ? ?. unfold files_only. repeat (split; [assumption|]).
  split; [|exists evs; split; assumption].
  intros Hoff. destruct Hfiles as [Hon|Hsame]; [congruence | exact Hsame].
Qed.

Ltac trace_tail :=
  lazymatch goal with
  | |- ((_ ++ _) ++ _) ++ _ = _ ++ _ => rewrite <- !List.app_assoc; reflexivity
  | |- (_ ++ _) ++ _ = _ ++ _ => rewrite <- List.app_assoc; reflexivity
  | |- _ ++ _ = _ ++ _ => reflexivity
  end.

Lemma LogToSDCard_files_only env tag message w :
  files_only w (snd (LogToSDCard env tag message w)).
Proof.
  unfold LogToSDCard. set (p := (MOUNT_POINT ++ "/SDCARD.txt")%string). unfold bind at 1.
  destruct (can_open env p ModeR w) eqn:Hr.
  - rewrite (FileExists_present _ _ _ Hr). cbn [negb].
    pose proof (can_open_mounted _ _ _ _ Hr) as Hon.
    match goal with |- context [log_append env p tag message ?w1] =>
      destruct (can_open env p ModeA w1) eqn:Ha;
      [rewrite (log_append_done _ _ _ _ _ Ha) | rewrite (log_append_refused _ _ _ _ _ Ha)]
    end; cbn [snd]; eapply files_only_intro;
      cbn [spi_claimed fat_mounted card files open_streams console trace]; try trace_tail; try reflexivity; try (left; exact Hon); repeat constructor.
  - rewrite (FileExists_absent _ _ _ Hr). cbn [negb]. unfold bind at 1.
    match goal with |- context [CreateFile env p ?w1] =>
      destruct (can_open env p ModeW w1) eqn:Hc;
      [rewrite (CreateFile_done _ _ _ Hc) | rewrite (CreateFile_refused _ _ _ Hc)]
    end; cbn [negb].
    + pose proof (can_open_mounted _ _ _ _ Hc) as Hon. cbn [fat_mounted] in Hon.
      match goal with |- context [log_append env p tag message ?w2] =>
        destruct (can_open env p ModeA w2) eqn:Ha;
        [rewrite (log_append_done _ _ _ _ _ Ha) | rewrite (log_append_refused _ _ _ _ _ Ha)]
      end; cbn [snd]; eapply files_only_intro;
      cbn [spi_claimed fat_mounted card files open_streams console trace]; try trace_tail; try reflexivity; try (left; exact Hon); repeat constructor.
    + unfold ret. cbn [snd]. eapply files_only_intro;
        cbn [spi_claimed fat_mounted card files open_streams console trace]; try trace_tail;
        try reflexivity; try (right; reflexivity); repeat constructor.
Qed.

Lemma spi_bus_initialize_run env w :
  spi_bus_initialize env w
  = (if spi_claimed w then ESP_ERR_INVALID_STATE else spi_init_result env,
     {| spi_claimed := spi_claimed w || (spi_init_result env =? ESP_OK);
        fat_mounted := fat_mounted w; card := card w; files := files w;
        open_streams := open_streams w; console := console w;
        trace := trace w ++ [EvSpiBusInitialize
                               (if spi_claimed w then ESP_ERR_INVALID_STATE
                                else spi_init_result env)] |}).
Proof.
  unfold spi_bus_initialize. run_monad. destruct (spi_claimed w); [reflexivity|].
  destruct (spi_init_result env =? ESP_OK); reflexivity.
Qed.

Lemma spi_bus_free_run w :
  spi_bus_free w
  = (if spi_claimed w && negb (fat_mounted w) then ESP_OK else ESP_ERR_INVALID_STATE,
     {| spi_claimed := spi_claimed w && fat_mounted w;
        fat_mounted := fat_mounted w; card := card w; files := files w;
        open_streams := open_streams w; console := console w;
        trace := trace w ++ [EvSpiBusFree
                               (if spi_claimed w && negb (fat_mounted w) then ESP_OK
                                else ESP_ERR_INVALID_STATE)] |}).
Proof.
  unfold spi_bus_free. run_monad. destruct (spi_claimed w), (fat_mounted w); reflexivity.
Qed.

Lemma esp_vfs_fat_sdspi_mount_run env w :
  esp_vfs_fat_sdspi_mount env w
  = (if spi_claimed w && negb (fat_mounted w) then mount_result env else ESP_ERR_INVALID_STATE,
     if spi_claimed w && negb (fat_mounted w) && (mount_result env =? ESP_OK)
     then {| spi_claimed := spi_claimed w; fat_mounted := true;
             card := Some (card_handle env); files := files w;
             open_streams := open_streams w; console := console w;
             trace := trace w ++ [EvSdspiMount ESP_OK] |}
     else {| spi_claimed := spi_claimed w; fat_mounted := fat_mounted w;
             card := card w; files := files w;
             open_streams := open_streams w; console := console w;
             trace := trace w ++ [EvSdspiMount
                                    (if spi_claimed w && negb (fat_mounted w)
                                     then mount_result env else ESP_ERR_INVALID_STATE)] |}).
Proof.
  unfold esp_vfs_fat_sdspi_mount. run_monad.
  destruct (spi_claimed w), (fat_mounted w); cbn [andb negb]; try reflexivity.
  destruct (Z.eqb_spec (mount_result env) ESP_OK) as [->|]; reflexivity.
Qed.

Lemma esp_vfs_fat_sdcard_unmount_run env w :
  esp_vfs_fat_sdcard_unmount env w
  = (if fat_mounted w then unmount_result env else ESP_ERR_INVALID_STATE,
     {| spi_claimed := spi_claimed w;
        fat_mounted := fat_mounted w && negb (unmount_result env =? ESP_OK);
        card := card w; files := files w;
        open_streams := open_streams w; console := console w;
        trace := trace w ++ [EvSdcardUnmount
                               (if fat_mounted w then unmount_result env
                                else ESP_ERR_INVALID_STATE)] |}).
Proof.
  unfold esp_vfs_fat_sdcard_unmount. run_monad.
  destruct (fat_mounted w); [|reflexivity].
  destruct (unmount_result env =? ESP_OK); reflexivity.
Qed.

Lemma file_events_no_mount evs : Forall file_event evs -> Forall (fun e => ~ mount_event e) evs.
Proof.
  intros H. eapply List.Forall_impl; [|exact H]. intros [] He; cbn in *; tauto.
Qed.

(** When the bus cannot be initialised, [InitSdCard] returns the status
    cut to eight bits, having touched only the log file. *)
Lemma InitSdCard_bus_failure env w :
  bus_init_status env w <> ESP_OK ->
  fst (InitSdCard env w) = u8 (bus_init_status env w)
  /\ spi_claimed (snd (InitSdCard env w)) = spi_claimed w
  /\ fat_mounted (snd (InitSdCard env w)) = fat_mounted w
  /\ card (snd (InitSdCard env w)) = card w
  /\ exists evs, trace (snd (InitSdCard env w)) = trace w ++ evs
                 /\ Forall (fun e => ~ mount_event e) evs.
Proof.
  intros Hbus. destruct (InitSdCard env w) as [code w'] eqn:Hrun. cbn [fst snd].
  unfold InitSdCard in Hrun. unfold bind at 1 in Hrun.
  pose proof (LogToSDCard_files_only env SDTAG "Initializing SD card..." w) as Hlog.
  destruct (LogToSDCard env SDTAG "Initializing SD card..." w) as [c w1].
  unfold files_only in Hlog. cbn [snd] in Hlog.
  destruct Hlog as (Hs1 & Hm1 & Hc1 & _ & _ & _ & evs1 & Ht1 & Hev1).
  unfold bind at 1 in Hrun. rewrite spi_bus_initialize_run in Hrun. rewrite Hs1 in Hrun.
  fold (bus_init_status env w) in Hrun.
  destruct (Z.eqb_spec (bus_init_status env w) ESP_OK) as [Heq|_]; [contradiction|].
  cbn [negb] in Hrun. unfold bind at 1 in Hrun.
  match type of Hrun with context [LogToSDCard env SDTAG ?msg ?w2] =>
    pose proof (LogToSDCard_files_only env SDTAG msg w2) as Hlog;
    destruct (LogToSDCard env SDTAG msg w2) as [c2 w3]
  end.
  unfold files_only in Hlog. cbn [snd spi_claimed fat_mounted card trace] in Hlog.
  destruct Hlog as (Hs3 & Hm3 & Hc3 & _ & _ & _ & evs3 & Ht3 & Hev3).
  unfold ret in Hrun. injection Hrun as <- <-.
  split; [reflexivity|]. split.
  { rewrite Hs3. unfold bus_init_status in Hbus. destruct (spi_claimed w); [reflexivity|].
    destruct (Z.eqb_spec (spi_init_result env) ESP_OK); [contradiction | reflexivity]. }
  split; [congruence|]. split; [congruence|].
  exists (evs1 ++ [EvSpiBusInitialize (bus_init_status env w)] ++ evs3). split.
  - rewrite Ht3, Ht1, <- !List.app_assoc. reflexivity.
  - apply Forall_app. split; [now apply file_events_no_mount|].
    apply Forall_app. split; [|now apply file_events_no_mount].
    constructor; [cbn; tauto | constructor].
Qed.

(** [InitSdCard] on a free bus that initialises, with nothing mounted:
    after the first log call the run is decided by the mount. *)
Lemma InitSdCard_bus_ok env w :
  spi_claimed w = false -> fat_mounted w = false -> spi_init_result env = ESP_OK ->
  forall w1, snd (LogToSDCard env SDTAG "Initializing SD card..." w) = w1 ->
  InitSdCard env w
  = if mount_result env =? ESP_OK
    then (RETURN_NUM_SDCARD_MOUNTSUCCESSFULLY,
          {| spi_claimed := true; fat_mounted := true; card := Some (card_handle env);
             files := files w1; open_streams := open_streams w1; console := console w1;
             trace := trace w1 ++ [EvSpiBusInitialize ESP_OK; EvSdspiMount ESP_OK;
                                   EvCardPrintInfo] |})
    else (RETURN_NUM_SDCARD_MOUNTFAIL,
          {| spi_claimed := false; fat_mounted := false; card := card w1;
             files := files w1; open_streams := open_streams w1; console := console w1;
             trace := trace w1 ++ [EvSpiBusInitialize ESP_OK;
                                   EvSdspiMount (mount_result env);
                                   EvSpiBusFree ESP_OK] |}).
Proof.
  intros Hfree Hoff Hinit w1 Hw1.
  pose proof (LogToSDCard_files_only env SDTAG "Initializing SD card..." w) as Hlog.
  rewrite Hw1 in Hlog. destruct Hlog as (Hs1 & Hm1 & _).
  unfold InitSdCard. unfold bind at 1.
  destruct (LogToSDCard env SDTAG "Initializing SD card..." w) as [c w0].
  cbn [snd] in Hw1. subst w0.
  unfold bind at 1. rewrite spi_bus_initialize_run. rewrite Hs1, Hfree, Hinit.
  cbn [negb Z.eqb ESP_OK orb]. unfold bind at 1. rewrite esp_vfs_fat_sdspi_mount_run.
  cbn [spi_claimed fat_mounted card files open_streams console trace].
  rewrite Hm1, Hoff. cbn [andb negb].
  destruct (Z.eqb_spec (mount_result env) ESP_OK) as [Hmount|Hmount]; cbn [negb].
  - unfold bind at 1, sdmmc_card_print_info, emit, ret.
    cbn [fst snd spi_claimed fat_mounted card files open_streams console trace].
    rewrite <- !List.app_assoc. reflexivity.
  - unfold bind at 1. rewrite spi_bus_free_run. unfold ret.
    cbn [fst snd spi_claimed fat_mounted card files open_streams console trace andb negb].
    rewrite ?Hm1, ?Hoff. cbn [andb negb]. rewrite <- !List.app_assoc. reflexivity.
Qed.

Lemma bus_init_status_ok env w :
  bus_init_status env w = ESP_OK -> spi_claimed w = false /\ spi_init_result env = ESP_OK.
Proof. unfold bus_init_status. destruct (spi_claimed w); [discriminate | tauto]. Qed.

Lemma wf_not_mounted w : wf w -> spi_claimed w = false -> fat_mounted w = false.
Proof.
  unfold wf. intros Hwf Hfree. destruct (fat_mounted w); [|reflexivity].
  specialize (Hwf eq_refl). congruence.
Qed.

(** [InitSdCard] keeps a mounted volume on a claimed bus. *)
Lemma InitSdCard_wf env w : wf w -> wf (snd (InitSdCard env w)).
Proof.
  intros Hwf. destruct (Z.eq_dec (bus_init_status env w) ESP_OK) as [Hbus|Hbus].
  - apply bus_init_status_ok in Hbus as [Hfree Hinit].
    rewrite (InitSdCard_bus_ok env w Hfree (wf_not_mounted w Hwf Hfree) Hinit _ eq_refl).
    unfold wf. destruct (mount_result env =? ESP_OK); cbn [snd fat_mounted spi_claimed];
      [reflexivity | discriminate].
  - destruct (InitSdCard_bus_failure env w Hbus) as (_ & Hs & Hm & _).
    unfold wf in *. rewrite Hs, Hm. exact Hwf.
Qed.

(** C6. [InitSdCard] on a world where a mounted volume implies a claimed
    bus.  When the bus cannot be initialised it returns that status (in
    eight bits) and makes no mount call; bus, mount and card handle stay
    as they were.  When the bus initialises and the mount fails it frees
    the bus, returns the mount-failure code, and bus, mount, card handle,
    files and open streams are as before the call.  Otherwise the volume
    is mounted. *)
Theorem InitSdCard_error_semantics (env : Env) (w : World) :
  wf w ->
  if negb (bus_init_status env w =? ESP_OK) then
    fst (InitSdCard env w) = u8 (bus_init_status env w)
    /\ spi_claimed (snd (InitSdCard env w)) = spi_claimed w
    /\ fat_mounted (snd (InitSdCard env w)) = fat_mounted w
    /\ card (snd (InitSdCard env w)) = card w
    /\ exists evs, trace (snd (InitSdCard env w)) = trace w ++ evs
                   /\ Forall (fun e => ~ mount_event e) evs
  else if negb (mount_result env =? ESP_OK) then
    fst (InitSdCard env w) = RETURN_NUM_SDCARD_MOUNTFAIL
    /\ spi_claimed (snd (InitSdCard env w)) = spi_claimed w
    /\ fat_mounted (snd (InitSdCard env w)) = fat_mounted w
    /\ card (snd (InitSdCard env w)) = card w
    /\ files (snd (InitSdCard env w)) = files w
    /\ open_streams (snd (InitSdCard env w)) = open_streams w
    /\ exists evs, Forall file_event evs
                   /\ trace (snd (InitSdCard env w))
                      = trace w ++ evs ++ [EvSpiBusInitialize ESP_OK;
                                           EvSdspiMount (mount_result env);
                                           EvSpiBusFree ESP_OK]
  else
    fst (InitSdCard env w) = RETURN_NUM_SDCARD_MOUNTSUCCESSFULLY
    /\ spi_claimed (snd (InitSdCard env w)) = true
    /\ fat_mounted (snd (InitSdCard env w)) = true
    /\ card (snd (InitSdCard env w)) = Some (card_handle env)
    /\ files (snd (InitSdCard env w)) = files w.
Proof.
  intros Hwf.
  destruct (Z.eqb_spec (bus_init_status env w) ESP_OK) as [Hbus|Hbus]; cbn [negb];
    [|now apply InitSdCard_bus_failure].
  apply bus_init_status_ok in Hbus as [Hfree Hinit].
  pose proof (wf_not_mounted w Hwf Hfree) as Hoff.
  rewrite (InitSdCard_bus_ok env w Hfree Hoff Hinit _ eq_refl).
  destruct (LogToSDCard_files_only env SDTAG "Initializing SD card..." w)
    as (Hs1 & Hm1 & Hc1 & Ho1 & _ & Hf1 & evs1 & Ht1 & Hev1).
  specialize (Hf1 Hoff).
  destruct (Z.eqb_spec (mount_result env) ESP_OK) as [Hmount|Hmount];
    cbn [negb fst snd spi_claimed fat_mounted card files open_streams trace].
  - repeat split. exact Hf1.
  - repeat (split; [congruence|]).
    exists evs1. split; [exact Hev1|]. rewrite Ht1, <- !List.app_assoc. reflexivity.
Qed.

Lemma world_off_wf fs : wf (Sample.world_off fs).
Proof. unfold wf. cbn. discriminate. Qed.

Lemma InitSdCard_error_semantics_witness :
  fst (InitSdCard Sample.env_mount_fails (Sample.world_off ∅)) = RETURN_NUM_SDCARD_MOUNTFAIL
  /\ spi_claimed (snd (InitSdCard Sample.env_mount_fails (Sample.world_off ∅))) = false.
Proof.
  pose proof (InitSdCard_error_semantics Sample.env_mount_fails (Sample.world_off ∅)
                (world_off_wf ∅)) as H.
  change (negb (bus_init_status Sample.env_mount_fails (Sample.world_off ∅) =? ESP_OK))
    with false in H.
  change (negb (mount_result Sample.env_mount_fails =? ESP_OK)) with true in H.
  cbv iota in H. destruct H as (Hcode & Hbus & _). split; [exact Hcode | exact Hbus].
Defined.

(** C10. When the SPI bus cannot be initialised, [InitSdCard] returns the
    platform's status cut to eight bits.  With [ESP_ERR_INVALID_ARG]
    (0x102) that is 2: not one of the two codes documented for the
    function, and equal to the write-success code. *)
Theorem InitSdCard_bus_failure_code (env : Env) (w : World) :
  bus_init_status env w <> ESP_OK ->
  fst (InitSdCard env w) = u8 (bus_init_status env w)
  /\ fst (InitSdCard (Sample.env_bus_fails ESP_ERR_INVALID_ARG) (Sample.world_off ∅))
     = RETURN_NUM_SDCARD_WRITESUCCESSFULL
  /\ RETURN_NUM_SDCARD_WRITESUCCESSFULL <> RETURN_NUM_SDCARD_MOUNTSUCCESSFULLY
  /\ RETURN_NUM_SDCARD_WRITESUCCESSFULL <> RETURN_NUM_SDCARD_MOUNTFAIL.
Proof.
  intros Hbus. split; [apply InitSdCard_bus_failure, Hbus|].
  split; [reflexivity|]. split; discriminate.
Qed.

Lemma InitSdCard_bus_failure_code_witness :
  fst (InitSdCard (Sample.env_bus_fails ESP_ERR_NO_MEM) (Sample.world_off ∅)) = 1.
Proof.
  destruct (InitSdCard_bus_failure_code (Sample.env_bus_fails ESP_ERR_NO_MEM)
              (Sample.world_off ∅)) as [Hcode _].
  - vm_compute. discriminate.
  - rewrite Hcode. reflexivity.
Defined.

(** C9. [SdCardUnmount] calls [spi_bus_free] only after
    [esp_vfs_fat_sdcard_unmount] returned [ESP_OK]: when the unmount
    fails, that call is the only one made and the bus is as it was. *)
Theorem SdCardUnmount_frees_bus_after_unmount (env : Env) (w : World) :
  if (if fat_mounted w then unmount_result env else ESP_ERR_INVALID_STATE) =? ESP_OK then
    exists r, trace (snd (SdCardUnmount env w))
              = trace w ++ [EvSdcardUnmount ESP_OK; EvSpiBusFree r]
  else
    trace (snd (SdCardUnmount env w))
    = trace w ++ [EvSdcardUnmount (if fat_mounted w then unmount_result env
                                   else ESP_ERR_INVALID_STATE)]
    /\ spi_claimed (snd (SdCardUnmount env w)) = spi_claimed w
    /\ fat_mounted (snd (SdCardUnmount env w)) = fat_mounted w.
Proof.
  destruct (SdCardUnmount env w) as [u w'] eqn:Hrun. cbn [snd].
  unfold SdCardUnmount in Hrun. unfold bind at 1 in Hrun.
  rewrite esp_vfs_fat_sdcard_unmount_run in Hrun.
  destruct (Z.eqb_spec (if fat_mounted w then unmount_result env else ESP_ERR_INVALID_STATE)
              ESP_OK) as [Hok|Hfail].
  - unfold bind at 1 in Hrun. rewrite spi_bus_free_run in Hrun.
    cbn [spi_claimed fat_mounted card files open_streams console trace] in Hrun.
    rewrite Hok in Hrun.
    match type of Hrun with context [EvSpiBusFree ?r] => exists r end.
    match type of Hrun with context [if ?c =? ESP_OK then _ else _] =>
      destruct (c =? ESP_OK) end;
      unfold printf in Hrun; injection Hrun as _ <-; cbn [trace];
      rewrite <- List.app_assoc; reflexivity.
  - unfold printf in Hrun. injection Hrun as _ <-. cbn [spi_claimed fat_mounted trace].
    split; [reflexivity|]. split; [reflexivity|]. destruct (fat_mounted w); [|reflexivity].
    destruct (Z.eqb_spec (unmount_result env) ESP_OK); [contradiction | reflexivity].
Qed.

Lemma SdCardUnmount_wf env w : wf w -> wf (snd (SdCardUnmount env w)).
Proof.
  intros Hwf. destruct (SdCardUnmount env w) as [u w'] eqn:Hrun. cbn [snd].
  unfold SdCardUnmount in Hrun. unfold bind at 1 in Hrun.
  rewrite esp_vfs_fat_sdcard_unmount_run in Hrun. unfold wf in *.
  destruct (fat_mounted w) eqn:Hon.
  - destruct (Z.eqb_spec (unmount_result env) ESP_OK) as [Hok|Hfail].
    + unfold bind at 1 in Hrun. rewrite spi_bus_free_run in Hrun.
      cbn [spi_claimed fat_mounted card files open_streams console trace andb negb] in Hrun.
      match type of Hrun with context [if ?c =? ESP_OK then _ else _] =>
        destruct (c =? ESP_OK) end;
        unfold printf in Hrun; injection Hrun as _ <-; cbn [fat_mounted]; discriminate.
    + unfold printf in Hrun. injection Hrun as _ <-. cbn [fat_mounted spi_claimed andb negb].
      intros _. apply Hwf. reflexivity.
  - cbn [Z.eqb ESP_ERR_INVALID_STATE ESP_OK] in Hrun. unfold printf in Hrun.
    injection Hrun as _ <-. cbn [fat_mounted andb]. discriminate.
Qed.

Lemma files_only_wf w w' : files_only w w' -> wf w -> wf w'.
Proof. unfold files_only, wf. intros (-> & -> & _) H. exact H. Qed.

(** * Further properties of the sensor driver *)

(** ** The PEC as a code *)

Lemma crc8_rounds_S n x : Nat.iter (S n) crc8_round x = crc8_round (Nat.iter n crc8_round x).
Proof. reflexivity. Qed.

Lemma crc8_round_zero n : Nat.iter n crc8_round 0 = 0.
Proof. induction n as [|n IH]; [reflexivity|]. rewrite crc8_rounds_S, IH. reflexivity. Qed.

Lemma Crc8_snoc bytes b : Crc8 (bytes ++ [b]) = crc8_absorb (Crc8 bytes) b.
Proof. unfold Crc8. rewrite fold_left_app. reflexivity. Qed.

(** X1. Running [CalculateCrc8] over a message followed by its own CRC
    gives 0. *)
Theorem CalculateCrc8_residue (bytes : list Z) :
  Forall is_u8 bytes ->
  Z.of_nat (length bytes) <= 254 ->
  CalculateCrc8 (bytes ++ [CalculateCrc8 bytes (Z.of_nat (length bytes))])
                (Z.of_nat (length bytes) + 1)
  = 0.
Proof.
  intros Hbytes Hlen.
  destruct (CalculateCrc8_is_Crc8_aux bytes (Z.of_nat (length bytes)) Hbytes) as [Hcrc Hr];
    [lia | lia |].
  rewrite Nat2Z.id, firstn_all in Hcrc.
  destruct (CalculateCrc8_is_Crc8_aux
              (bytes ++ [CalculateCrc8 bytes (Z.of_nat (length bytes))])
              (Z.of_nat (length bytes) + 1)) as [Hcrc' _].
  - apply Forall_app. split; [exact Hbytes|]. constructor; [exact Hr | constructor].
  - lia.
  - rewrite length_app. cbn [length]. lia.
  - rewrite Hcrc'.
    replace (Z.to_nat (Z.of_nat (length bytes) + 1))
      with (length (bytes ++ [CalculateCrc8 bytes (Z.of_nat (length bytes))]))
      by (rewrite length_app; cbn [length]; lia).
    rewrite firstn_all, Crc8_snoc, Hcrc. unfold crc8_absorb.
    rewrite Z.lxor_nilpotent. apply crc8_round_zero.
Qed.

Lemma CalculateCrc8_residue_witness :
  CalculateCrc8 (pec_frame 0x41 0x44 ++ [0x93]) 6 = 0.
Proof.
  apply (CalculateCrc8_residue (pec_frame 0x41 0x44)).
  - repeat constructor; vm_compute; intuition congruence.
  - cbn. lia.
Defined.

Lemma crc8_round_linear a b :
  is_u8 a -> is_u8 b -> crc8_round (Z.lxor a b) = Z.lxor (crc8_round a) (crc8_round b).
Proof.
  intros Ha Hb.
  assert (Hall : forallb (fun x => forallb (fun y =>
                    crc8_round (Z.lxor x y) =? Z.lxor (crc8_round x) (crc8_round y))
                    all_bytes) all_bytes = true) by (vm_compute; reflexivity).
  pose proof (u8_all _ Hall a Ha) as Hrow. cbv beta in Hrow.
  pose proof (u8_all _ Hrow b Hb) as Hcell. cbv beta in Hcell.
  now apply Z.eqb_eq.
Qed.

Lemma crc8_rounds_range n x : is_u8 x -> is_u8 (Nat.iter n crc8_round x).
Proof.
  intros Hx. induction n as [|n IH]; [exact Hx|]. rewrite crc8_rounds_S.
  apply crc8_round_range, IH.
Qed.

Lemma crc8_rounds_linear n a b :
  is_u8 a -> is_u8 b ->
  Nat.iter n crc8_round (Z.lxor a b)
  = Z.lxor (Nat.iter n crc8_round a) (Nat.iter n crc8_round b).
Proof.
  intros Ha Hb. induction n as [|n IH]; [reflexivity|]. rewrite !crc8_rounds_S, IH.
  apply crc8_round_linear; now apply crc8_rounds_range.
Qed.

Lemma crc8_absorb_linear a1 a2 b1 b2 :
  is_u8 a1 -> is_u8 a2 -> is_u8 b1 -> is_u8 b2 ->
  crc8_absorb (Z.lxor a1 a2) (Z.lxor b1 b2)
  = Z.lxor (crc8_absorb a1 b1) (crc8_absorb a2 b2).
Proof.
  intros Ha1 Ha2 Hb1 Hb2. unfold crc8_absorb.
  replace (Z.lxor (Z.lxor a1 a2) (Z.lxor b1 b2)) with (Z.lxor (Z.lxor a1 b1) (Z.lxor a2 b2)).
  - apply crc8_rounds_linear; now apply lxor_u8.
  - rewrite !Z.lxor_assoc. f_equal. rewrite <- !Z.lxor_assoc. f_equal. apply Z.lxor_comm.
Qed.

Lemma Crc8_from_linear (a e : list Z) :
  Forall is_u8 a -> Forall is_u8 e -> length a = length e ->
  forall acc1 acc2, is_u8 acc1 -> is_u8 acc2 ->
    fold_left crc8_absorb (xor_frames a e) (Z.lxor acc1 acc2)
    = Z.lxor (fold_left crc8_absorb a acc1) (fold_left crc8_absorb e acc2).
Proof.
  intros Ha. revert e. induction Ha as [|x a Hx Ha IH]; intros e He Hlen acc1 acc2 H1 H2.
  - destruct e; [reflexivity | discriminate].
  - destruct e as [|d e]; [discriminate|]. inversion He as [|? ? Hd He']; subst.
    cbn [xor_frames fold_left]. rewrite crc8_absorb_linear by assumption.
    apply IH; [assumption | now injection Hlen | now apply crc8_absorb_range ..].
Qed.

Lemma xor_frames_bytes a e : Forall is_u8 a -> Forall is_u8 e -> Forall is_u8 (xor_frames a e).
Proof.
  intros Ha. revert e. induction Ha as [|x a Hx Ha IH]; intros e He; [constructor|].
  destruct He as [|d e Hd He]; [constructor|]. cbn [xor_frames].
  constructor; [now apply lxor_u8 | now apply IH].
Qed.

Lemma xor_frames_length a e : length a = length e -> length (xor_frames a e) = length a.
Proof.
  revert e. induction a as [|x a IH]; intros [|d e] Hlen; try discriminate; [reflexivity|].
  cbn [xor_frames length]. f_equal. apply IH. now injection Hlen.
Qed.

(** X2. [CalculateCrc8] is linear: the CRC of a frame with some bits
    flipped is the CRC of the frame exclusive-ored with the CRC of the
    pattern of flipped bits. *)
Theorem CalculateCrc8_linear (frame flips : list Z) :
  Forall is_u8 frame -> Forall is_u8 flips ->
  length frame = length flips ->
  Z.of_nat (length frame) <= 255 ->
  CalculateCrc8 (xor_frames frame flips) (Z.of_nat (length frame))
  = Z.lxor (CalculateCrc8 frame (Z.of_nat (length frame)))
           (CalculateCrc8 flips (Z.of_nat (length frame))).
Proof.
  intros Hf He Hlen Hmax.
  destruct (CalculateCrc8_is_Crc8_aux frame (Z.of_nat (length frame)) Hf) as [-> _];
    [lia | lia |].
  destruct (CalculateCrc8_is_Crc8_aux flips (Z.of_nat (length frame)) He) as [-> _];
    [lia | lia |].
  destruct (CalculateCrc8_is_Crc8_aux (xor_frames frame flips) (Z.of_nat (length frame)))
    as [-> _]; [now apply xor_frames_bytes | lia | rewrite xor_frames_length by exact Hlen; lia |].
  rewrite Nat2Z.id.
  rewrite <- (xor_frames_length frame flips Hlen) at 1. rewrite !firstn_all.
  rewrite Hlen, firstn_all. unfold Crc8.
  change 0 with (Z.lxor 0 0) at 1.
  apply Crc8_from_linear; try assumption; unfold is_u8; lia.
Qed.

Lemma CalculateCrc8_linear_witness :
  CalculateCrc8 (xor_frames (pec_frame 0x41 0x44) [0; 0; 0; 0x08; 0]) 5
  = Z.lxor (CalculateCrc8 (pec_frame 0x41 0x44) 5) (CalculateCrc8 [0; 0; 0; 0x08; 0] 5).
Proof.
  apply (CalculateCrc8_linear (pec_frame 0x41 0x44) [0; 0; 0; 0x08; 0]).
  - repeat constructor; vm_compute; intuition congruence.
  - repeat constructor; vm_compute; intuition congruence.
  - reflexivity.
  - cbn. lia.
Defined.

(** ** What a read accepts *)

(** The three ways through [MLX90614ReadTemp]. *)
Lemma MLX90614ReadTemp_run (bus : list i2c_cmd -> i2c_reply) (out : temp_out) :
  is_u8 (rx_first (bus read_temp_cmds)) -> is_u8 (rx_second (bus read_temp_cmds)) ->
  MLX90614ReadTemp bus out
  = if negb (i2c_ret (bus read_temp_cmds) =? ESP_OK)
    then (RETURN_NUM_MLX90614_READFAIL, out)
    else if negb (Crc8 [0xB4; 0x07; 0xB5; rx_first (bus read_temp_cmds);
                        rx_second (bus read_temp_cmds)]
                  =? rx_third (bus read_temp_cmds))
    then (RETURN_NUM_MLX90614_READFAIL, out)
    else (RETURN_NUM_MLX90614_READSUCCESSFULLY,
          {| tempcelsius :=
               celsius_of (raw_of_bytes (rx_first (bus read_temp_cmds))
                                        (rx_second (bus read_temp_cmds)));
             tempfahrenheit :=
               fahrenheit_of (raw_of_bytes (rx_first (bus read_temp_cmds))
                                           (rx_second (bus read_temp_cmds))) |}).
Proof.
  intros Hl Hm. unfold MLX90614ReadTemp.
  destruct (negb (i2c_ret (bus read_temp_cmds) =? ESP_OK)); [reflexivity|].
  rewrite (calcpec_is_Crc8 _ _ Hl Hm).
  destruct (negb (Crc8 [0xB4; 0x07; 0xB5; rx_first (bus read_temp_cmds);
                        rx_second (bus read_temp_cmds)]
                  =? rx_third (bus read_temp_cmds))); [reflexivity|].
  pose proof (conversion_ok_bytes _ _ Hl Hm) as Hok. unfold conversion_ok in Hok.
  repeat (apply andb_true_iff in Hok as [Hok _]). apply Z.eqb_eq in Hok.
  fold (rawtemp_of (rx_first (bus read_temp_cmds)) (rx_second (bus read_temp_cmds))).
  rewrite Hok. reflexivity.
Qed.

(** X3. [MLX90614ReadTemp] returns the success code exactly when the
    transfer completed and the PEC received is the CRC-8 of the frame;
    in every other case it returns the failure code and leaves both
    outputs alone, a failed transfer included, whatever bytes came with
    it. *)
Theorem MLX90614ReadTemp_outcome (bus : list i2c_cmd -> i2c_reply) (out : temp_out) :
  is_u8 (rx_first (bus read_temp_cmds)) -> is_u8 (rx_second (bus read_temp_cmds)) ->
  (fst (MLX90614ReadTemp bus out) = RETURN_NUM_MLX90614_READSUCCESSFULLY
   <-> i2c_ret (bus read_temp_cmds) = ESP_OK
       /\ Crc8 [0xB4; 0x07; 0xB5; rx_first (bus read_temp_cmds);
                rx_second (bus read_temp_cmds)]
          = rx_third (bus read_temp_cmds))
  /\ (fst (MLX90614ReadTemp bus out) <> RETURN_NUM_MLX90614_READSUCCESSFULLY ->
      MLX90614ReadTemp bus out = (RETURN_NUM_MLX90614_READFAIL, out)).
Proof.
  intros Hl Hm. rewrite (MLX90614ReadTemp_run bus out Hl Hm).
  destruct (Z.eqb_spec (i2c_ret (bus read_temp_cmds)) ESP_OK) as [Hret|Hret]; cbn [negb].
  - destruct (Z.eqb_spec (Crc8 [0xB4; 0x07; 0xB5; rx_first (bus read_temp_cmds);
                                rx_second (bus read_temp_cmds)])
                (rx_third (bus read_temp_cmds))) as [Hpec|Hpec]; cbn [negb fst].
    + split; [tauto | intros H; now contradiction H].
    + split; [|reflexivity]. split; [discriminate | tauto].
  - cbn [fst]. split; [|reflexivity]. split; [discriminate | tauto].
Qed.

Lemma MLX90614ReadTemp_outcome_witness :
  MLX90614ReadTemp (Sample.sensor ESP_FAIL 0x41 0x44 0x93) Sample.out_nan
  = (RETURN_NUM_MLX90614_READFAIL, Sample.out_nan).
Proof.
  destruct (MLX90614ReadTemp_outcome (Sample.sensor ESP_FAIL 0x41 0x44 0x93) Sample.out_nan)
    as [_ Hfail].
  - vm_compute. intuition congruence.
  - vm_compute. intuition congruence.
  - apply Hfail. vm_compute. discriminate.
Defined.

Lemma lxor_cancel_l c a b : Z.lxor c a = Z.lxor c b <-> a = b.
Proof.
  split; [|now intros ->]. intros H. apply (f_equal (Z.lxor c)) in H.
  now rewrite <- !Z.lxor_assoc, Z.lxor_nilpotent, !Z.lxor_0_l in H.
Qed.

(** The CRC of a corrupted frame, by the CRC of the corruption. *)
Lemma Crc8_corrupted lsb msb dl dm :
  is_u8 lsb -> is_u8 msb -> is_u8 dl -> is_u8 dm ->
  Crc8 [0xB4; 0x07; 0xB5; Z.lxor lsb dl; Z.lxor msb dm]
  = Z.lxor (Crc8 [0xB4; 0x07; 0xB5; lsb; msb]) (Crc8 [dl; dm]).
Proof.
  intros Hl Hm Hdl Hdm.
  change [0xB4; 0x07; 0xB5; Z.lxor lsb dl; Z.lxor msb dm]
    with (xor_frames [0xB4; 0x07; 0xB5; lsb; msb] [0; 0; 0; dl; dm]).
  assert (Hlead : Crc8 [dl; dm] = fold_left crc8_absorb [0; 0; 0; dl; dm] 0).
  { unfold Crc8. cbn [fold_left].
    replace (crc8_absorb 0 0) with 0 by (vm_compute; reflexivity).
    replace (crc8_absorb 0 0) with 0 by (vm_compute; reflexivity). reflexivity. }
  rewrite Hlead. unfold Crc8.
  replace (fold_left crc8_absorb (xor_frames [0xB4; 0x07; 0xB5; lsb; msb] [0; 0; 0; dl; dm]) 0)
    with (fold_left crc8_absorb (xor_frames [0xB4; 0x07; 0xB5; lsb; msb] [0; 0; 0; dl; dm])
            (Z.lxor 0 0)) by reflexivity.
  apply Crc8_from_linear; try reflexivity; try (unfold is_u8; lia);
    repeat (constructor; [first [assumption | unfold is_u8; lia]|]); constructor.
Qed.

(** A reply whose data bytes and PEC were sent right and reached the
    master with the bits of [dl], [dm], [dp] flipped is accepted exactly
    when the flipped bits are themselves two bytes under their CRC. *)
Lemma corrupted_reply_accepted (bus : list i2c_cmd -> i2c_reply) (out : temp_out)
    (lsb msb dl dm dp : Z) :
  is_u8 lsb -> is_u8 msb -> is_u8 dl -> is_u8 dm ->
  bus read_temp_cmds
  = {| i2c_ret := ESP_OK; rx_first := Z.lxor lsb dl; rx_second := Z.lxor msb dm;
       rx_third := Z.lxor (Crc8 [0xB4; 0x07; 0xB5; lsb; msb]) dp |} ->
  MLX90614ReadTemp bus out
  = if Crc8 [dl; dm] =? dp
    then (RETURN_NUM_MLX90614_READSUCCESSFULLY,
          {| tempcelsius := celsius_of (raw_of_bytes (Z.lxor lsb dl) (Z.lxor msb dm));
             tempfahrenheit := fahrenheit_of (raw_of_bytes (Z.lxor lsb dl) (Z.lxor msb dm)) |})
    else (RETURN_NUM_MLX90614_READFAIL, out).
Proof.
  intros Hl Hm Hdl Hdm Hbus.
  rewrite MLX90614ReadTemp_run; rewrite Hbus; cbn [i2c_ret rx_first rx_second rx_third];
    try (now apply lxor_u8).
  change (negb (ESP_OK =? ESP_OK)) with false. cbv iota.
  rewrite (Crc8_corrupted lsb msb dl dm Hl Hm Hdl Hdm).
  destruct (Z.eqb_spec (Crc8 [dl; dm]) dp) as [Heq|Hne].
  - rewrite Heq, Z.eqb_refl. reflexivity.
  - destruct (Z.eqb_spec (Z.lxor (Crc8 [0xB4; 0x07; 0xB5; lsb; msb]) (Crc8 [dl; dm]))
                (Z.lxor (Crc8 [0xB4; 0x07; 0xB5; lsb; msb]) dp)) as [Heq|_]; [|reflexivity].
    apply lxor_cancel_l in Heq. contradiction.
Qed.

(** X4. A corrupted reply passes the PEC check exactly when the pattern
    of flipped bits is itself a pair of data bytes followed by its
    CRC-8: with [dl], [dm], [dp] the bits flipped in low byte, high byte
    and PEC, the read succeeds if and only if [Crc8 [dl; dm] = dp]. *)
Theorem MLX90614ReadTemp_accepts_codewords
    (bus : list i2c_cmd -> i2c_reply) (out : temp_out) (lsb msb dl dm dp : Z) :
  is_u8 lsb -> is_u8 msb -> is_u8 dl -> is_u8 dm ->
  bus read_temp_cmds
  = {| i2c_ret := ESP_OK; rx_first := Z.lxor lsb dl; rx_second := Z.lxor msb dm;
       rx_third := Z.lxor (Crc8 [0xB4; 0x07; 0xB5; lsb; msb]) dp |} ->
  fst (MLX90614ReadTemp bus out) = RETURN_NUM_MLX90614_READSUCCESSFULLY
  <-> Crc8 [dl; dm] = dp.
Proof.
  intros Hl Hm Hdl Hdm Hbus.
  rewrite (corrupted_reply_accepted bus out lsb msb dl dm dp Hl Hm Hdl Hdm Hbus).
  destruct (Z.eqb_spec (Crc8 [dl; dm]) dp) as [Heq|Hne]; cbn [fst].
  - tauto.
  - split; [discriminate | contradiction].
Qed.

Lemma MLX90614ReadTemp_accepts_codewords_witness :
  fst (MLX90614ReadTemp (Sample.sensor ESP_OK 0x41 0x45 0x94) Sample.out_nan)
  = RETURN_NUM_MLX90614_READSUCCESSFULLY.
Proof.
  apply (MLX90614ReadTemp_accepts_codewords (Sample.sensor ESP_OK 0x41 0x45 0x94)
           Sample.out_nan 0x41 0x44 0x00 0x01 0x07).
  - vm_compute. intuition congruence.
  - vm_compute. intuition congruence.
  - vm_compute. intuition congruence.
  - vm_compute. intuition congruence.
  - reflexivity.
  - reflexivity.
Defined.

Lemma pec_distance dl dm : is_u8 dl -> is_u8 dm -> pec_distance_ok dl dm = true.
Proof.
  intros Hdl Hdm.
  assert (Hall : forallb (fun x => forallb (fun y => pec_distance_ok y x) all_bytes)
                   all_bytes = true) by (vm_compute; reflexivity).
  pose proof (u8_all _ Hall dm Hdm) as Hrow. cbv beta in Hrow.
  exact (u8_all _ Hrow dl Hdl).
Qed.

(** X5. One, two or three flipped bits among the 24 bits of low byte,
    high byte and PEC never pass: the read returns the failure code and
    writes no output. *)
Theorem MLX90614ReadTemp_detects_three_flips
    (bus : list i2c_cmd -> i2c_reply) (out : temp_out) (lsb msb dl dm dp : Z) :
  is_u8 lsb -> is_u8 msb -> is_u8 dl -> is_u8 dm ->
  1 <= popcount8 dl + popcount8 dm + popcount8 dp <= 3 ->
  bus read_temp_cmds
  = {| i2c_ret := ESP_OK; rx_first := Z.lxor lsb dl; rx_second := Z.lxor msb dm;
       rx_third := Z.lxor (Crc8 [0xB4; 0x07; 0xB5; lsb; msb]) dp |} ->
  MLX90614ReadTemp bus out = (RETURN_NUM_MLX90614_READFAIL, out).
Proof.
  intros Hl Hm Hdl Hdm Hflips Hbus.
  rewrite (corrupted_reply_accepted bus out lsb msb dl dm dp Hl Hm Hdl Hdm Hbus).
  destruct (Z.eqb_spec (Crc8 [dl; dm]) dp) as [Heq|Hne]; [|reflexivity].
  exfalso. pose proof (pec_distance dl dm Hdl Hdm) as Hd. unfold pec_distance_ok in Hd.
  rewrite Heq in Hd. apply orb_true_iff in Hd as [Hzero|Hfar].
  - apply andb_true_iff in Hzero as [H1 H2]. apply Z.eqb_eq in H1, H2. subst dl dm.
    subst dp. vm_compute in Hflips. destruct Hflips as [Hflips _]. now apply Hflips.
  - apply Z.leb_le in Hfar. lia.
Qed.

Lemma MLX90614ReadTemp_detects_three_flips_witness :
  MLX90614ReadTemp (Sample.sensor ESP_OK 0x40 0x46 0x92) Sample.out_nan
  = (RETURN_NUM_MLX90614_READFAIL, Sample.out_nan).
Proof.
  apply (MLX90614ReadTemp_detects_three_flips (Sample.sensor ESP_OK 0x40 0x46 0x92)
           Sample.out_nan 0x41 0x44 0x01 0x02 0x01).
  - vm_compute. intuition congruence.
  - vm_compute. intuition congruence.
  - vm_compute. intuition congruence.
  - vm_compute. intuition congruence.
  - vm_compute. intuition congruence.
  - reflexivity.
Defined.

(** ** Order of the temperatures *)

Lemma climbs_above f fuel : forall i prev,
  climbs f fuel i prev = true ->
  forall j, i <= j < i + Z.of_nat fuel ->
  exists q, f32_value (f j) = Some q /\ (prev < q)%Q.
Proof.
  induction fuel as [|fuel IH]; intros i prev Hc j Hj; [lia|].
  cbn [climbs] in Hc. destruct (f32_value (f i)) as [q|] eqn:Hq; [|discriminate].
  apply andb_true_iff in Hc as [Hlt Hrest].
  assert (Hpq : (prev < q)%Q).
  { apply Qnot_le_lt. intros Hle. apply Qle_bool_iff in Hle. rewrite Hle in Hlt. discriminate. }
  destruct (Z.eq_dec j i) as [->|Hne]; [exists q; tauto|].
  destruct (IH (i + 1) q Hrest j) as (q' & Hq' & Hlt'); [lia|].
  exists q'. split; [exact Hq'|]. now apply Qlt_trans with q.
Qed.

Lemma climbs_ordered f fuel : forall i prev,
  climbs f fuel i prev = true ->
  forall j1 j2, i <= j1 -> j1 < j2 -> j2 < i + Z.of_nat fuel ->
  exists q1 q2, f32_value (f j1) = Some q1 /\ f32_value (f j2) = Some q2 /\ (q1 < q2)%Q.
Proof.
  induction fuel as [|fuel IH]; intros i prev Hc j1 j2 H1 H12 H2; [lia|].
  cbn [climbs] in Hc. destruct (f32_value (f i)) as [q|] eqn:Hq; [|discriminate].
  apply andb_true_iff in Hc as [_ Hrest].
  destruct (Z.eq_dec j1 i) as [->|Hne].
  - destruct (climbs_above f fuel (i + 1) q Hrest j2) as (q2 & Hq2 & Hlt); [lia|].
    exists q, q2. tauto.
  - apply (IH (i + 1) q Hrest); lia.
Qed.

Lemma celsius_climbs : climbs celsius_of (Z.to_nat 65536) 0 (-300 # 1) = true.
Proof. vm_compute. reflexivity. Qed.

Lemma fahrenheit_climbs : climbs fahrenheit_of (Z.to_nat 65536) 0 (-500 # 1) = true.
Proof. vm_compute. reflexivity. Qed.

Lemma raw_of_bytes_range lsb msb :
  is_u8 lsb -> is_u8 msb -> 0 <= raw_of_bytes lsb msb < 65536.
Proof. unfold is_u8, raw_of_bytes. lia. Qed.

(** X6. The conversion keeps the order of the raw values: of two
    accepted reads, the one with the larger raw value reports the
    strictly larger Celsius and the strictly larger Fahrenheit. *)
Theorem MLX90614ReadTemp_monotone
    (bus1 bus2 : list i2c_cmd -> i2c_reply) (out1 out2 : temp_out) :
  is_u8 (rx_first (bus1 read_temp_cmds)) -> is_u8 (rx_second (bus1 read_temp_cmds)) ->
  is_u8 (rx_first (bus2 read_temp_cmds)) -> is_u8 (rx_second (bus2 read_temp_cmds)) ->
  fst (MLX90614ReadTemp bus1 out1) = RETURN_NUM_MLX90614_READSUCCESSFULLY ->
  fst (MLX90614ReadTemp bus2 out2) = RETURN_NUM_MLX90614_READSUCCESSFULLY ->
  raw_of_bytes (rx_first (bus1 read_temp_cmds)) (rx_second (bus1 read_temp_cmds))
  < raw_of_bytes (rx_first (bus2 read_temp_cmds)) (rx_second (bus2 read_temp_cmds)) ->
  exists c1 c2 f1 f2 : Q,
    f32_value (tempcelsius (snd (MLX90614ReadTemp bus1 out1))) = Some c1
    /\ f32_value (tempcelsius (snd (MLX90614ReadTemp bus2 out2))) = Some c2
    /\ f32_value (tempfahrenheit (snd (MLX90614ReadTemp bus1 out1))) = Some f1
    /\ f32_value (tempfahrenheit (snd (MLX90614ReadTemp bus2 out2))) = Some f2
    /\ (c1 < c2)%Q /\ (f1 < f2)%Q.
Proof.
  intros Hl1 Hm1 Hl2 Hm2 Hok1 Hok2 Hlt.
  rewrite (MLX90614ReadTemp_run bus1 out1 Hl1 Hm1) in *.
  rewrite (MLX90614ReadTemp_run bus2 out2 Hl2 Hm2) in *.
  destruct (negb (i2c_ret (bus1 read_temp_cmds) =? ESP_OK)); [discriminate Hok1|].
  destruct (negb (Crc8 _ =? rx_third (bus1 read_temp_cmds))); [discriminate Hok1|].
  destruct (negb (i2c_ret (bus2 read_temp_cmds) =? ESP_OK)); [discriminate Hok2|].
  destruct (negb (Crc8 _ =? rx_third (bus2 read_temp_cmds))); [discriminate Hok2|].
  cbn [snd tempcelsius tempfahrenheit].
  pose proof (raw_of_bytes_range _ _ Hl1 Hm1) as Hr1.
  pose proof (raw_of_bytes_range _ _ Hl2 Hm2) as Hr2.
  destruct (climbs_ordered _ _ _ _ celsius_climbs _ _ (proj1 Hr1) Hlt)
    as (c1 & c2 & Hc1 & Hc2 & Hc); [rewrite Z2Nat.id; lia|].
  destruct (climbs_ordered _ _ _ _ fahrenheit_climbs _ _ (proj1 Hr1) Hlt)
    as (f1 & f2 & Hf1 & Hf2 & Hf); [rewrite Z2Nat.id; lia|].
  exists c1, c2, f1, f2. tauto.
Qed.

Lemma MLX90614ReadTemp_monotone_witness :
  exists c1 c2 : Q,
    f32_value (tempcelsius (snd Sample.zero_read)) = Some c1
    /\ f32_value (tempcelsius (snd (MLX90614ReadTemp (Sample.sensor ESP_OK 0x41 0x44 0x93)
                                      Sample.out_nan))) = Some c2
    /\ (c1 < c2)%Q.
Proof.
  destruct (MLX90614ReadTemp_monotone (Sample.sensor ESP_OK 0 0 6)
              (Sample.sensor ESP_OK 0x41 0x44 0x93) Sample.out_nan Sample.out_nan)
    as (c1 & c2 & _ & _ & Hc1 & Hc2 & _ & _ & Hc & _).
  - vm_compute. intuition congruence.
  - vm_compute. intuition congruence.
  - vm_compute. intuition congruence.
  - vm_compute. intuition congruence.
  - reflexivity.
  - reflexivity.
  - vm_compute. reflexivity.
  - exists c1, c2. split; [exact Hc1|]. split; [exact Hc2 | exact Hc].
Defined.

(** * Further properties of the storage handler *)

Lemma can_open_unmounted env path mode w :
  fat_mounted w = false -> can_open env path mode w = false.
Proof. intros H. unfold can_open. rewrite H. reflexivity. Qed.

Lemma can_open_write_append env path w :
  can_open env path ModeA w = can_open env path ModeW w.
Proof. reflexivity. Qed.

Lemma world_eta (w : World) :
  {| spi_claimed := spi_claimed w; fat_mounted := fat_mounted w; card := card w;
     files := files w; open_streams := open_streams w; console := console w;
     trace := trace w |} = w.
Proof. destruct w; reflexivity. Qed.

Lemma DeleteFile_run env path w :
  DeleteFile env path w
  = if fat_mounted w && bool_decide (is_Some (files w !! path)) && writable_at env path
    then (RETURN_NUM_SDCARD_DELETEFILESUCCESSFULLY,
          {| spi_claimed := spi_claimed w; fat_mounted := fat_mounted w; card := card w;
             files := delete path (files w); open_streams := open_streams w;
             console := console w; trace := trace w |})
    else (RETURN_NUM_SDCARD_DELETEFILEFAIL, w).
Proof.
  unfold DeleteFile, unlink. run_monad.
  destruct (fat_mounted w && bool_decide (is_Some (files w !! path)) && writable_at env path).
  - run_monad. reflexivity.
  - cbn [Z.eqb]. reflexivity.
Qed.

(** The log line goes in exactly when the append-mode open can succeed. *)
Lemma LogToSDCard_run env tag message w :
  LogToSDCard env tag message w
  = if can_open env Sample.log_path ModeA w
    then (RETURN_NUM_SDCARD_APPENDSUCCESSFULLY,
          {| spi_claimed := spi_claimed w; fat_mounted := fat_mounted w; card := card w;
             files := appended Sample.log_path (tag ++ ": " ++ message ++ nl) (files w);
             open_streams := open_streams w; console := console w;
             trace := trace (snd (LogToSDCard env tag message w)) |})
    else (RETURN_NUM_SDCARD_APPENDFAIL,
          {| spi_claimed := spi_claimed w; fat_mounted := fat_mounted w; card := card w;
             files := files w; open_streams := open_streams w; console := console w;
             trace := trace (snd (LogToSDCard env tag message w)) |}).
Proof.
  unfold LogToSDCard. change (MOUNT_POINT ++ "/SDCARD.txt")%string with Sample.log_path.
  unfold bind at 1 3 5.
  destruct (can_open env Sample.log_path ModeR w) eqn:Hr.
  - rewrite (FileExists_present _ _ _ Hr). cbn [negb].
    match goal with |- context [log_append env _ tag message ?w1] =>
      assert (Ha : can_open env Sample.log_path ModeA w1 = can_open env Sample.log_path ModeA w)
        by reflexivity;
      destruct (can_open env Sample.log_path ModeA w1) eqn:Ha1;
      [rewrite (log_append_done _ _ _ _ _ Ha1) | rewrite (log_append_refused _ _ _ _ _ Ha1)]
    end; rewrite <- Ha; reflexivity.
  - rewrite (FileExists_absent _ _ _ Hr). cbn [negb]. unfold bind at 1 2 3.
    match goal with |- context [CreateFile env _ ?w1] =>
      assert (Hc : can_open env Sample.log_path ModeW w1 = can_open env Sample.log_path ModeA w)
        by reflexivity;
      destruct (can_open env Sample.log_path ModeW w1) eqn:Hc1;
      [rewrite (CreateFile_done _ _ _ Hc1) | rewrite (CreateFile_refused _ _ _ Hc1)]
    end; rewrite <- Hc; cbn [negb].
    + match goal with |- context [log_append env _ tag message ?w2] =>
        assert (Ha1 : can_open env Sample.log_path ModeA w2 = true) by exact Hc1;
        rewrite (log_append_done _ _ _ _ _ Ha1)
      end.
      cbn [fst snd spi_claimed fat_mounted card files open_streams console trace].
      assert (Habsent : files w !! Sample.log_path = None).
      { unfold can_open in Hr, Hc1. cbn [fat_mounted open_streams] in Hc1.
        apply andb_true_iff in Hc1 as [Hc1 _]. rewrite Hc1 in Hr. cbn [andb] in Hr.
        apply bool_decide_eq_false in Hr. destruct (files w !! Sample.log_path); [|reflexivity].
        exfalso. apply Hr. eexists. reflexivity. }
      unfold appended. rewrite lookup_insert_eq, insert_insert_eq, Habsent. reflexivity.
    + unfold ret. reflexivity.
Qed.

Ltac by_open env path mode w :=
  destruct (can_open env path mode w) eqn:?Hopen.

(** X7. No handler function leaves a stream open: after each of them as
    many streams are open on the volume as before, whether it succeeded
    or not. *)
Theorem no_stream_left_open (env : Env) (path data tag message : string) (w : World) :
  open_streams (snd (FileExists env path w)) = open_streams w
  /\ open_streams (snd (CreateFile env path w)) = open_streams w
  /\ open_streams (snd (WriteFile env path w)) = open_streams w
  /\ open_streams (snd (ReadFile env path w)) = open_streams w
  /\ open_streams (snd (AppendFile env path data w)) = open_streams w
  /\ open_streams (snd (DeleteFile env path w)) = open_streams w
  /\ open_streams (snd (LogToSDCard env tag message w)) = open_streams w.
Proof.
  split.
  { by_open env path ModeR w;
      [rewrite FileExists_present | rewrite FileExists_absent]; auto. }
  split.
  { by_open env path ModeW w;
      [rewrite CreateFile_done | rewrite CreateFile_refused]; auto. }
  split.
  { by_open env path ModeW w;
      [rewrite WriteFile_done | rewrite WriteFile_refused]; auto. }
  split.
  { by_open env path ModeR w;
      [rewrite ReadFile_done | rewrite ReadFile_refused]; auto. }
  split.
  { by_open env path ModeA w;
      [rewrite AppendFile_done | rewrite AppendFile_refused]; auto. }
  split.
  { rewrite DeleteFile_run.
    destruct (fat_mounted w && bool_decide (is_Some (files w !! path)) && writable_at env path);
      reflexivity. }
  rewrite LogToSDCard_run. destruct (can_open env Sample.log_path ModeA w); reflexivity.
Qed.

(** X8. With no volume mounted every file function fails with its own
    failure code and the files of the card stay as they are. *)
Theorem file_functions_need_a_mount (env : Env) (path data tag message : string) (w : World) :
  fat_mounted w = false ->
  FileExists env path w
  = (false, {| spi_claimed := spi_claimed w; fat_mounted := fat_mounted w; card := card w;
               files := files w; open_streams := open_streams w; console := console w;
               trace := trace w ++ [EvFopen path ModeR false] |})
  /\ fst (CreateFile env path w) = false
  /\ files (snd (CreateFile env path w)) = files w
  /\ fst (WriteFile env path w) = RETURN_NUM_SDCARD_WRITEFAIL
  /\ files (snd (WriteFile env path w)) = files w
  /\ fst (ReadFile env path w) = RETURN_NUM_SDCARD_READFAIL
  /\ console (snd (ReadFile env path w)) = console w
  /\ fst (AppendFile env path data w) = RETURN_NUM_SDCARD_APPENDFAIL
  /\ files (snd (AppendFile env path data w)) = files w
  /\ DeleteFile env path w = (RETURN_NUM_SDCARD_DELETEFILEFAIL, w)
  /\ fst (LogToSDCard env tag message w) = RETURN_NUM_SDCARD_APPENDFAIL
  /\ files (snd (LogToSDCard env tag message w)) = files w.
Proof.
  intros Hoff.
  pose proof (can_open_unmounted env path ModeR w Hoff) as Hr.
  pose proof (can_open_unmounted env path ModeW w Hoff) as Hw.
  pose proof (can_open_unmounted env path ModeA w Hoff) as Ha.
  rewrite (FileExists_absent _ _ _ Hr), (CreateFile_refused _ _ _ Hw),
    (WriteFile_refused _ _ _ Hw), (ReadFile_refused _ _ _ Hr),
    (AppendFile_refused _ _ _ _ Ha), DeleteFile_run, LogToSDCard_run.
  rewrite (can_open_unmounted env Sample.log_path ModeA w Hoff), Hoff.
  cbn [andb fst snd files console]. repeat split.
Qed.

Lemma file_functions_need_a_mount_witness :
  fst (AppendFile Sample.env_ok Sample.mlx_path "celsius=76.31" (Sample.world_off ∅))
  = RETURN_NUM_SDCARD_APPENDFAIL.
Proof.
  destruct (file_functions_need_a_mount Sample.env_ok Sample.mlx_path "celsius=76.31"
              SDTAG "x" (Sample.world_off ∅)) as (_ & _ & _ & _ & _ & _ & _ & H & _).
  - reflexivity.
  - exact H.
Defined.

Lemma appended_other path other text (fs : gmap string string) :
  other <> path -> appended path text fs !! other = fs !! other.
Proof. intros Hne. unfold appended. apply lookup_insert_ne. congruence. Qed.

(** X9. A file function changes no file but the one it is given:
    [CreateFile], [WriteFile], [AppendFile] and [DeleteFile] leave every
    other path as it was, and [LogToSDCard] every path but that of the
    log. *)
Theorem file_functions_touch_one_path
    (env : Env) (path other data tag message : string) (w : World) :
  other <> path ->
  files (snd (CreateFile env path w)) !! other = files w !! other
  /\ files (snd (WriteFile env path w)) !! other = files w !! other
  /\ files (snd (AppendFile env path data w)) !! other = files w !! other
  /\ files (snd (DeleteFile env path w)) !! other = files w !! other
  /\ (other <> Sample.log_path ->
      files (snd (LogToSDCard env tag message w)) !! other = files w !! other).
Proof.
  intros Hne.
  split.
  { by_open env path ModeW w; [rewrite CreateFile_done | rewrite CreateFile_refused]; auto.
    cbn [snd files]. apply lookup_insert_ne. congruence. }
  split.
  { by_open env path ModeW w; [rewrite WriteFile_done | rewrite WriteFile_refused]; auto.
    cbn [snd files]. apply lookup_insert_ne. congruence. }
  split.
  { by_open env path ModeA w; [rewrite AppendFile_done | rewrite AppendFile_refused]; auto.
    cbn [snd files]. now apply appended_other. }
  split.
  { rewrite DeleteFile_run.
    destruct (fat_mounted w && bool_decide (is_Some (files w !! path)) && writable_at env path);
      [|reflexivity].
    cbn [snd files]. apply lookup_delete_ne. congruence. }
  intros Hlog. rewrite LogToSDCard_run.
  destruct (can_open env Sample.log_path ModeA w); [|reflexivity].
  cbn [snd files]. now apply appended_other.
Qed.

Lemma file_functions_touch_one_path_witness :
  files (snd (WriteFile Sample.env_ok Sample.mlx_path
                (Sample.world_on {[Sample.log_path := "SD_CARD: kept"]})))
    !! Sample.log_path
  = Some "SD_CARD: kept".
Proof.
  destruct (file_functions_touch_one_path Sample.env_ok Sample.mlx_path Sample.log_path
              "" "" "" (Sample.world_on {[Sample.log_path := "SD_CARD: kept"]}))
    as (_ & H & _).
  - discriminate.
  - rewrite H. reflexivity.
Defined.

(** X10. [CreateFile] returns [true] exactly when its truncating open
    succeeds, and then the file is empty whatever it held before; when
    it returns [false] no file has changed.  [FileExists] asked next
    answers [true] when the create succeeded and as it would have
    answered before otherwise. *)
Theorem CreateFile_empties_the_file (env : Env) (StringPath : string) (w : World) :
  fst (CreateFile env StringPath w) = can_open env StringPath ModeW w
  /\ files (snd (CreateFile env StringPath w))
     = (if fst (CreateFile env StringPath w)
        then <[StringPath := EmptyString]> (files w)
        else files w)
  /\ fst (FileExists env StringPath (snd (CreateFile env StringPath w)))
     = fst (CreateFile env StringPath w) || fst (FileExists env StringPath w).
Proof.
  by_open env StringPath ModeW w.
  - rewrite (CreateFile_done _ _ _ Hopen). cbn [fst snd files orb].
    split; [reflexivity|]. split; [reflexivity|].
    rewrite FileExists_present; [reflexivity|].
    unfold can_open in *. cbn [fat_mounted open_streams files].
    apply andb_true_iff in Hopen as [Hopen _]. rewrite Hopen, lookup_insert_eq.
    apply bool_decide_eq_true. eexists. reflexivity.
  - rewrite (CreateFile_refused _ _ _ Hopen). cbn [fst snd files orb].
    split; [reflexivity|]. split; [reflexivity|].
    destruct (can_open env StringPath ModeR w) eqn:Hr.
    + rewrite (FileExists_present _ _ _ Hr). now rewrite FileExists_present.
    + rewrite (FileExists_absent _ _ _ Hr). now rewrite FileExists_absent.
Qed.

(** X11. [LogToSDCard] returns the append-success code exactly when a
    volume is mounted, a stream is free and the log path is writable;
    the log then holds what it held, followed by tag, colon, space,
    message and newline.  In every other case the files are unchanged:
    the create inside never empties a log that is there. *)
Theorem LogToSDCard_keeps_the_log (env : Env) (tag message : string) (w : World) :
  fst (LogToSDCard env tag message w)
  = (if can_open env Sample.log_path ModeA w
     then RETURN_NUM_SDCARD_APPENDSUCCESSFULLY else RETURN_NUM_SDCARD_APPENDFAIL)
  /\ files (snd (LogToSDCard env tag message w))
     = (if can_open env Sample.log_path ModeA w
        then <[Sample.log_path :=
                 (default EmptyString (files w !! Sample.log_path)
                  ++ tag ++ ": " ++ message ++ nl)%string]> (files w)
        else files w).
Proof.
  rewrite LogToSDCard_run. destruct (can_open env Sample.log_path ModeA w); split; reflexivity.
Qed.

(** X12. [DeleteFile] returns the delete-success code exactly when a
    volume is mounted, the file is there and the path is writable: the
    file is then gone and [FileExists] answers [false]; otherwise it
    returns the delete-failure code and the world is as it was. *)
Theorem DeleteFile_removes_the_file (env : Env) (StringPath : string) (w : World) :
  (if fat_mounted w && bool_decide (is_Some (files w !! StringPath))
      && writable_at env StringPath
   then fst (DeleteFile env StringPath w) = RETURN_NUM_SDCARD_DELETEFILESUCCESSFULLY
        /\ files (snd (DeleteFile env StringPath w)) = delete StringPath (files w)
        /\ fst (FileExists env StringPath (snd (DeleteFile env StringPath w))) = false
   else DeleteFile env StringPath w = (RETURN_NUM_SDCARD_DELETEFILEFAIL, w))
  /\ (files w !! StringPath = None ->
      DeleteFile env StringPath w = (RETURN_NUM_SDCARD_DELETEFILEFAIL, w)).
Proof.
  rewrite DeleteFile_run. split.
  - destruct (fat_mounted w && bool_decide (is_Some (files w !! StringPath))
              && writable_at env StringPath); [|reflexivity].
    cbn [fst snd files]. split; [reflexivity|]. split; [reflexivity|].
    rewrite FileExists_absent; [reflexivity|].
    apply can_open_absent. cbn [files]. apply lookup_delete_eq.
  - intros Habsent. rewrite Habsent.
    rewrite (bool_decide_eq_false_2 (is_Some None)) by (intros [? ?]; discriminate).
    rewrite andb_false_r. reflexivity.
Qed.

(** ** Appending and reading back *)

Lemma string_app_assoc (a b c : string) : ((a ++ b) ++ c)%string = (a ++ b ++ c)%string.
Proof.
  induction a as [|x a IH]; [reflexivity|].
  change (String x ((a ++ b) ++ c)%string = String x (a ++ b ++ c)%string). f_equal. exact IH.
Qed.

Lemma string_drop_app (a b : string) : string_drop (String.length a) (a ++ b) = b.
Proof. induction a as [|x a IH]; [reflexivity | exact IH]. Qed.


Lemma take_line_short n (l rest : string) :
  no_newline l = true -> (String.length l < n)%nat ->
  take_line n (l ++ nl ++ rest) = (l ++ nl)%string.
Proof.
  revert n. induction l as [|c l IH]; intros n Hfree Hlen.
  - destruct n as [|n]; [cbn in Hlen; lia|]. reflexivity.
  - destruct n as [|n]; [cbn in Hlen; lia|].
    cbn [no_newline] in Hfree. apply andb_true_iff in Hfree as [Hc Hfree].
    change (String c l ++ nl ++ rest)%string with (String c (l ++ nl ++ rest)%string).
    cbn [take_line]. apply negb_true_iff in Hc. rewrite Hc.
    change (String c l ++ nl)%string with (String c (l ++ nl)%string). f_equal.
    apply IH; [exact Hfree | cbn [String.length] in Hlen; lia].
Qed.

Lemma line_not_empty (l : string) : (l ++ nl)%string <> EmptyString.
Proof. destruct l; discriminate. Qed.

Lemma fgets_pieces_lines (lines : list string) :
  Forall short_line lines ->
  forall fuel, (length lines < fuel)%nat ->
  fgets_pieces fuel (lines_text lines) = map (fun l => (l ++ nl)%string) lines.
Proof.
  induction 1 as [|l lines [Hfree Hlen] _ IH]; intros fuel Hfuel.
  - destruct fuel; reflexivity.
  - destruct fuel as [|fuel]; [lia|]. cbn [lines_text fold_right fgets_pieces map].
    fold (lines_text lines). rewrite (take_line_short 127 l _ Hfree Hlen).
    destruct (l ++ nl)%string as [|c line] eqn:Hline; [now apply line_not_empty in Hline|].
    rewrite <- Hline. f_equal.
    rewrite <- string_app_assoc, string_drop_app. apply IH. cbn [length] in Hfuel. lia.
Qed.

Lemma lines_text_length (lines : list string) :
  (length lines <= String.length (lines_text lines))%nat.
Proof.
  induction lines as [|l lines IH]; [cbn; lia|]. cbn [lines_text fold_right length].
  fold (lines_text lines). rewrite !string_length_app. cbn [String.length nl]. lia.
Qed.

Lemma lines_text_app (a b : list string) :
  lines_text (a ++ b) = (lines_text a ++ lines_text b)%string.
Proof.
  induction a as [|l a IH]; [reflexivity|].
  cbn [lines_text fold_right app]. fold (lines_text (a ++ b)) (lines_text a).
  rewrite IH, !string_app_assoc. reflexivity.
Qed.

(** [append_each] on a file that is there and a volume that lets it be
    opened for appending. *)
Lemma append_each_run env path (texts : list string) :
  forall w old,
    can_open env path ModeA w = true ->
    files w !! path = Some old ->
    fst (append_each env path texts w)
    = map (fun _ => RETURN_NUM_SDCARD_APPENDSUCCESSFULLY) texts
    /\ files (snd (append_each env path texts w)) !! path = Some (old ++ lines_text texts)%string
    /\ fat_mounted (snd (append_each env path texts w)) = fat_mounted w
    /\ open_streams (snd (append_each env path texts w)) = open_streams w
    /\ console (snd (append_each env path texts w)) = console w.
Proof.
  induction texts as [|text texts IH]; intros w old Hopen Hold.
  - cbn [append_each lines_text fold_right map]. unfold ret. cbn [fst snd].
    rewrite string_app_nil_r. auto.
  - cbn [append_each]. unfold bind. rewrite (AppendFile_done _ _ _ _ Hopen). cbv beta iota.
    match goal with |- context [append_each env path texts ?w1] =>
      destruct (IH w1 (old ++ text ++ nl)%string) as (Hcodes & Hfile & Hm & Ho & Hc);
      [exact Hopen
      | cbn [files]; unfold appended; rewrite Hold; apply lookup_insert_eq
      | destruct (append_each env path texts w1) as [codes w2]]
    end.
    cbn [fst snd fat_mounted open_streams console] in *. unfold ret.
    cbn [fst snd map lines_text fold_right].
    fold (lines_text texts). rewrite Hcodes, Hfile, Hm, Ho, Hc.
    rewrite !string_app_assoc. auto.
Qed.

(** X13. Lines appended to a freshly created file come back in call
    order: after [CreateFile], [AppendFile] once per text and [ReadFile],
    every append has returned the append-success code, the file holds the
    texts each followed by a newline, and [ReadFile] has printed exactly
    these lines, one per [fgets], provided no text holds a newline or has
    more than 126 characters. *)
Theorem appended_lines_read_back (env : Env) (StringPath : string) (texts : list string)
    (w : World) :
  can_open env StringPath ModeW w = true ->
  Forall short_line texts ->
  fst (CreateFile env StringPath w) = true
  /\ fst (append_each env StringPath texts (snd (CreateFile env StringPath w)))
     = map (fun _ => RETURN_NUM_SDCARD_APPENDSUCCESSFULLY) texts
  /\ files (snd (append_each env StringPath texts (snd (CreateFile env StringPath w))))
       !! StringPath
     = Some (lines_text texts)
  /\ fst (ReadFile env StringPath
            (snd (append_each env StringPath texts (snd (CreateFile env StringPath w)))))
     = RETURN_NUM_SDCARD_READSUCCESSFULL
  /\ console (snd (ReadFile env StringPath
                     (snd (append_each env StringPath texts
                             (snd (CreateFile env StringPath w))))))
     = console w ++ map (fun l => (l ++ nl)%string) texts.
Proof.
  intros Hopen Hshort. rewrite (CreateFile_done _ _ _ Hopen). cbn [fst snd].
  split; [reflexivity|].
  match goal with |- context [append_each env StringPath texts ?w1] =>
    destruct (append_each_run env StringPath texts w1 EmptyString)
      as (Hcodes & Hfile & Hm & Ho & Hc);
    [exact Hopen | cbn [files]; apply lookup_insert_eq |];
    destruct (append_each env StringPath texts w1) as [codes w2]
  end.
  cbn [fst snd fat_mounted open_streams console] in *.
  change (EmptyString ++ lines_text texts)%string with (lines_text texts) in Hfile.
  split; [exact Hcodes|]. split; [exact Hfile|].
  assert (Hread : can_open env StringPath ModeR w2 = true).
  { unfold can_open in *. rewrite Hm, Ho, Hfile.
    apply andb_true_iff in Hopen as [Hopen _]. rewrite Hopen.
    apply bool_decide_eq_true. eexists. reflexivity. }
  rewrite (ReadFile_done _ _ _ Hread). cbn [fst snd console]. split; [reflexivity|].
  rewrite Hc, Hfile.
  change (default EmptyString (Some (lines_text texts))) with (lines_text texts). f_equal.
  apply fgets_pieces_lines; [exact Hshort|]. pose proof (lines_text_length texts). lia.
Qed.

Lemma appended_lines_read_back_witness :
  console (snd (ReadFile Sample.env_ok Sample.mlx_path
                  (snd (append_each Sample.env_ok Sample.mlx_path
                          ["celsius=76.31"; "celsius=76.33"]
                          (snd (CreateFile Sample.env_ok Sample.mlx_path
                                  (Sample.world_on ∅)))))))
  = [("celsius=76.31" ++ nl)%string; ("celsius=76.33" ++ nl)%string].
Proof.
  destruct (appended_lines_read_back Sample.env_ok Sample.mlx_path
              ["celsius=76.31"; "celsius=76.33"] (Sample.world_on ∅))
    as (_ & _ & _ & _ & H).
  - reflexivity.
  - repeat constructor; cbn; lia.
  - exact H.
Defined.



(** ** Mounting, once more *)

(** What [LogToSDCard] leaves alone. *)
Lemma LogToSDCard_frame env tag message w :
  spi_claimed (snd (LogToSDCard env tag message w)) = spi_claimed w
  /\ fat_mounted (snd (LogToSDCard env tag message w)) = fat_mounted w
  /\ card (snd (LogToSDCard env tag message w)) = card w
  /\ open_streams (snd (LogToSDCard env tag message w)) = open_streams w
  /\ console (snd (LogToSDCard env tag message w)) = console w
  /\ forall p, fat_mounted w = false \/ p <> Sample.log_path ->
       files (snd (LogToSDCard env tag message w)) !! p = files w !! p.
Proof.
  rewrite LogToSDCard_run.
  destruct (can_open env Sample.log_path ModeA w) eqn:Hopen;
    cbn [snd spi_claimed fat_mounted card open_streams console files]; repeat split.
  intros p [Hoff|Hne].
  - rewrite (can_open_unmounted _ _ _ _ Hoff) in Hopen. discriminate.
  - now apply appended_other.
Qed.

(** The files [InitSdCard] leaves alone: all of them on a start with
    nothing mounted, all but the log otherwise. *)
Lemma InitSdCard_files_at env w p :
  fat_mounted w = false \/ p <> Sample.log_path ->
  files (snd (InitSdCard env w)) !! p = files w !! p.
Proof.
  intros Hp. destruct (InitSdCard env w) as [code w'] eqn:Hrun. cbn [snd].
  unfold InitSdCard in Hrun. unfold bind at 1 in Hrun.
  destruct (LogToSDCard_frame env SDTAG "Initializing SD card..." w)
    as (Hs1 & Hm1 & _ & _ & _ & Hf1).
  destruct (LogToSDCard env SDTAG "Initializing SD card..." w) as [c w1].
  cbn [snd] in *. specialize (Hf1 p Hp).
  unfold bind at 1 in Hrun. rewrite spi_bus_initialize_run in Hrun.
  match type of Hrun with context [negb (?r =? ESP_OK)] => destruct (negb (r =? ESP_OK)) end.
  - unfold bind at 1 in Hrun.
    match type of Hrun with context [LogToSDCard env SDTAG ?msg ?w2] =>
      destruct (LogToSDCard_frame env SDTAG msg w2) as (_ & _ & _ & _ & _ & Hf3);
      destruct (LogToSDCard env SDTAG msg w2) as [c2 w3]
    end.
    cbn [snd fat_mounted files] in Hf3. unfold ret in Hrun. injection Hrun as _ <-.
    rewrite Hf3; [exact Hf1|]. rewrite Hm1. exact Hp.
  - unfold bind at 1 in Hrun. rewrite esp_vfs_fat_sdspi_mount_run in Hrun.
    cbn [spi_claimed fat_mounted card files open_streams console trace] in Hrun.
    match type of Hrun with context [negb (?r =? ESP_OK)] => destruct (negb (r =? ESP_OK)) end.
    + unfold bind at 1 in Hrun. rewrite spi_bus_free_run in Hrun. unfold ret in Hrun.
      match type of Hrun with context [if ?c then {| spi_claimed := _ |} else _] =>
        destruct c end;
        injection Hrun as _ <-; exact Hf1.
    + unfold bind at 1, sdmmc_card_print_info, emit, ret in Hrun.
      match type of Hrun with context [if ?c then {| spi_claimed := _ |} else _] =>
        destruct c end;
        injection Hrun as _ <-; exact Hf1.
Qed.

Lemma InitSdCard_cold_start_logs_nothing_aux env w :
  fat_mounted w = false -> files (snd (InitSdCard env w)) = files w.
Proof. intros Hoff. apply map_eq. intros p. apply InitSdCard_files_at. now left. Qed.

(** X15. On a start with nothing mounted [InitSdCard] writes nothing to
    the card, whatever its outcome: its two log calls run before any
    volume is there, so neither message reaches the log file. *)
Theorem InitSdCard_cold_start_logs_nothing (env : Env) (w : World) :
  fat_mounted w = false ->
  files (snd (InitSdCard env w)) = files w.
Proof.
  intros Hoff. apply map_eq. intros p. apply InitSdCard_files_at. left. exact Hoff.
Qed.

Lemma InitSdCard_cold_start_logs_nothing_witness :
  files (snd (InitSdCard Sample.env_ok (Sample.world_off ∅))) = ∅.
Proof.
  apply (InitSdCard_cold_start_logs_nothing Sample.env_ok (Sample.world_off ∅)). reflexivity.
Defined.

Lemma SdCardUnmount_mounted_ok env w :
  spi_claimed w = true -> fat_mounted w = true -> unmount_result env = ESP_OK ->
  exists t,
    SdCardUnmount env w
    = (tt, {| spi_claimed := false; fat_mounted := false; card := card w; files := files w;
              open_streams := open_streams w;
              console := console w ++ ["SD Card unmounted successfully."];
              trace := t |}).
Proof.
  intros Hclaimed Hon Hunmount.
  unfold SdCardUnmount. unfold bind at 1. rewrite esp_vfs_fat_sdcard_unmount_run.
  rewrite Hon, Hunmount. cbn [Z.eqb ESP_OK andb negb]. unfold bind at 1.
  rewrite spi_bus_free_run.
  cbn [spi_claimed fat_mounted card files open_streams console trace].
  rewrite Hclaimed. cbn [andb negb Z.eqb ESP_OK]. unfold printf.
  cbn [spi_claimed fat_mounted card files open_streams console trace].
  eexists. reflexivity.
Qed.

(** X16. Mounting and unmounting undo each other: from a free bus with
    nothing mounted, when the platform calls succeed, [InitSdCard]
    returns the mount-success code and [SdCardUnmount] after it leaves
    the bus free and nothing mounted, files and open streams as at the
    start, having printed the success message; [InitSdCard] then mounts
    again. *)
Theorem mount_unmount_round_trip (env : Env) (w : World) :
  spi_claimed w = false -> fat_mounted w = false ->
  spi_init_result env = ESP_OK -> mount_result env = ESP_OK ->
  unmount_result env = ESP_OK ->
  fst (InitSdCard env w) = RETURN_NUM_SDCARD_MOUNTSUCCESSFULLY
  /\ spi_claimed (snd (SdCardUnmount env (snd (InitSdCard env w)))) = false
  /\ fat_mounted (snd (SdCardUnmount env (snd (InitSdCard env w)))) = false
  /\ files (snd (SdCardUnmount env (snd (InitSdCard env w)))) = files w
  /\ open_streams (snd (SdCardUnmount env (snd (InitSdCard env w)))) = open_streams w
  /\ console (snd (SdCardUnmount env (snd (InitSdCard env w))))
     = console w ++ ["SD Card unmounted successfully."]
  /\ fst (InitSdCard env (snd (SdCardUnmount env (snd (InitSdCard env w)))))
     = RETURN_NUM_SDCARD_MOUNTSUCCESSFULLY.
Proof.
  intros Hfree Hoff Hinit Hmount Hunmount.
  pose proof (InitSdCard_cold_start_logs_nothing_aux env w) as Hfiles.
  rewrite (InitSdCard_bus_ok env w Hfree Hoff Hinit _ eq_refl) in *.
  rewrite Hmount in *. cbn [Z.eqb ESP_OK fst snd] in *.
  destruct (LogToSDCard_frame env SDTAG "Initializing SD card..." w)
    as (_ & _ & _ & Ho1 & Hc1 & _).
  set (w1 := snd (LogToSDCard env SDTAG "Initializing SD card..." w)) in *.
  split; [reflexivity|].
  match goal with |- context [SdCardUnmount env ?wm] =>
    destruct (SdCardUnmount_mounted_ok env wm eq_refl eq_refl Hunmount) as [t Hrun]
  end.
  rewrite Hrun. cbn [snd spi_claimed fat_mounted files
    open_streams console].
  split; [reflexivity|]. split; [reflexivity|].
  split; [apply Hfiles, Hoff|]. split; [exact Ho1|]. split; [now rewrite Hc1|].
  match goal with |- fst (InitSdCard env ?w2) = _ =>
    rewrite (InitSdCard_bus_ok env w2 eq_refl eq_refl Hinit _ eq_refl)
  end.
  rewrite Hmount. reflexivity.
Qed.

Lemma mount_unmount_round_trip_witness :
  spi_claimed (snd (SdCardUnmount Sample.env_ok
                      (snd (InitSdCard Sample.env_ok (Sample.world_off ∅))))) = false.
Proof.
  destruct (mount_unmount_round_trip Sample.env_ok (Sample.world_off ∅)) as (_ & H & _).
  - reflexivity.
  - reflexivity.
  - reflexivity.
  - reflexivity.
  - reflexivity.
  - exact H.
Defined.

(** X17. A mounted volume always sits on a claimed bus: every handler
    function keeps that true. *)
Theorem handlers_keep_volume_on_bus (env : Env) (path data tag message : string) (w : World) :
  wf w ->
  wf (snd (InitSdCard env w))
  /\ wf (snd (SdCardUnmount env w))
  /\ wf (snd (LogToSDCard env tag message w))
  /\ wf (snd (FileExists env path w))
  /\ wf (snd (CreateFile env path w))
  /\ wf (snd (WriteFile env path w))
  /\ wf (snd (ReadFile env path w))
  /\ wf (snd (AppendFile env path data w))
  /\ wf (snd (DeleteFile env path w)).
Proof.
  intros Hwf. split; [now apply InitSdCard_wf|]. split; [now apply SdCardUnmount_wf|].
  split; [eapply files_only_wf; [apply LogToSDCard_files_only | exact Hwf]|].
  split; [by_open env path ModeR w;
          [rewrite FileExists_present | rewrite FileExists_absent]; auto|].
  split; [by_open env path ModeW w;
          [rewrite CreateFile_done | rewrite CreateFile_refused]; auto|].
  split; [by_open env path ModeW w;
          [rewrite WriteFile_done | rewrite WriteFile_refused]; auto|].
  split; [by_open env path ModeR w;
          [rewrite ReadFile_done | rewrite ReadFile_refused]; auto|].
  split; [by_open env path ModeA w;
          [rewrite AppendFile_done | rewrite AppendFile_refused]; auto|].
  rewrite DeleteFile_run.
  destruct (fat_mounted w && bool_decide (is_Some (files w !! path)) && writable_at env path);
    exact Hwf.
Qed.

Lemma handlers_keep_volume_on_bus_witness :
  wf (snd (InitSdCard Sample.env_ok (Sample.world_off ∅))).
Proof.
  destruct (handlers_keep_volume_on_bus Sample.env_ok "" "" "" "" (Sample.world_off ∅))
    as [H _].
  - apply world_off_wf.
  - exact H.
Defined.

(** X18. [InitSdCard] on a bus that is already claimed, as after an
    earlier successful call: the bus is refused, no mount call is made,
    the code returned is 3 ([ESP_ERR_INVALID_STATE] in eight bits), and
    bus, mount and card handle stay as they were; only the log file can
    have changed. *)
Theorem InitSdCard_twice (env : Env) (w : World) :
  spi_claimed w = true ->
  fst (InitSdCard env w) = 3
  /\ spi_claimed (snd (InitSdCard env w)) = true
  /\ fat_mounted (snd (InitSdCard env w)) = fat_mounted w
  /\ card (snd (InitSdCard env w)) = card w
  /\ (forall p, p <> Sample.log_path -> files (snd (InitSdCard env w)) !! p = files w !! p)
  /\ exists evs, trace (snd (InitSdCard env w)) = trace w ++ evs
                 /\ Forall (fun e => ~ mount_event e) evs.
Proof.
  intros Hclaimed.
  assert (Hstatus : bus_init_status env w = ESP_ERR_INVALID_STATE)
    by (unfold bus_init_status; now rewrite Hclaimed).
  destruct (InitSdCard_bus_failure env w) as (Hcode & Hs & Hm & Hc & Hev).
  { rewrite Hstatus. discriminate. }
  rewrite Hstatus in Hcode. rewrite Hs, Hclaimed.
  split; [exact Hcode|]. split; [reflexivity|]. split; [exact Hm|]. split; [exact Hc|].
  split; [|exact Hev]. intros p Hp. apply InitSdCard_files_at. now right.
Qed.

Lemma InitSdCard_twice_witness :
  fst (InitSdCard Sample.env_ok (snd (InitSdCard Sample.env_ok (Sample.world_off ∅)))) = 3.
Proof.
  destruct (InitSdCard_twice Sample.env_ok
              (snd (InitSdCard Sample.env_ok (Sample.world_off ∅)))) as [H _].
  - reflexivity.
  - exact H.
Defined.

(** * Properties of the I2C initialisation *)

Lemma MLX90614I2CInit_run ienv st :
  MLX90614I2CInit ienv st
  = if negb (param_config_result ienv init_conf =? ESP_OK)
    then (RETURN_NUM_MLX90614_INITFAIL,
          {| driver_installed := driver_installed st;
             i2c_trace := i2c_trace st
                          ++ [EvI2cParamConfig 0 init_conf
                                (param_config_result ienv init_conf)] |})
    else if negb (driver_installed st) && (driver_install_result ienv =? ESP_OK)
    then (RETURN_NUM_MLX90614_INITSUCCESSFULLY,
          {| driver_installed := true;
             i2c_trace := i2c_trace st
                          ++ [EvI2cParamConfig 0 init_conf ESP_OK;
                              EvI2cDriverInstall 0 I2C_MODE_MASTER ESP_OK] |})
    else (RETURN_NUM_MLX90614_INITFAIL,
          {| driver_installed := driver_installed st;
             i2c_trace := i2c_trace st
                          ++ [EvI2cParamConfig 0 init_conf ESP_OK;
                              EvI2cDriverInstall 0 I2C_MODE_MASTER
                                (if driver_installed st then ESP_FAIL
                                 else driver_install_result ienv)] |}).
Proof.
  unfold MLX90614I2CInit, i2c_param_config, i2c_driver_install.
  cbn [fst snd mode driver_installed i2c_trace].
  fold init_conf.
  change {| mode := I2C_MODE_MASTER; sda_io_num := MLX90614_SDA_GPIO;
            scl_io_num := MLX90614_SCL_GPIO; sda_pullup_en := GPIO_PULLUP_ENABLE;
            scl_pullup_en := GPIO_PULLUP_ENABLE; master_clk_speed := MLX90614_I2C_FREQ_HZ |}
    with init_conf.
  change MLX90614_I2C_PORT with 0.
  destruct (Z.eqb_spec (param_config_result ienv init_conf) ESP_OK) as [Hc|Hc]; cbn [negb];
    [|reflexivity].
  rewrite Hc. destruct (driver_installed st); cbn [negb andb orb].
  - change (ESP_FAIL =? ESP_OK) with false. cbv iota. rewrite <- app_assoc. reflexivity.
  - destruct (Z.eqb_spec (driver_install_result ienv) ESP_OK) as [Hi|Hi].
    + rewrite Hi. rewrite <- app_assoc. reflexivity.
    + rewrite <- app_assoc. reflexivity.
Qed.

(** X19. [MLX90614I2CInit] returns the init-success code exactly when
    the driver accepts the configuration, the port has no driver yet and
    the install succeeds; in every other case it returns the init-failure
    code, never the driver's own error value.  When the configuration is
    refused no install is attempted.  After a success the driver is
    installed, and a further call fails whatever the hardware answers. *)
Theorem MLX90614I2CInit_outcome (ienv : I2cEnv) (st : I2cState) :
  fst (MLX90614I2CInit ienv st)
  = (if (param_config_result ienv init_conf =? ESP_OK)
        && negb (driver_installed st) && (driver_install_result ienv =? ESP_OK)
     then RETURN_NUM_MLX90614_INITSUCCESSFULLY else RETURN_NUM_MLX90614_INITFAIL)
  /\ (if param_config_result ienv init_conf =? ESP_OK
      then exists r, i2c_trace (snd (MLX90614I2CInit ienv st))
                     = i2c_trace st ++ [EvI2cParamConfig 0 init_conf ESP_OK;
                                        EvI2cDriverInstall 0 I2C_MODE_MASTER r]
      else i2c_trace (snd (MLX90614I2CInit ienv st))
           = i2c_trace st ++ [EvI2cParamConfig 0 init_conf
                                (param_config_result ienv init_conf)])
  /\ (if fst (MLX90614I2CInit ienv st) =? RETURN_NUM_MLX90614_INITSUCCESSFULLY
      then driver_installed (snd (MLX90614I2CInit ienv st)) = true
           /\ forall ienv', fst (MLX90614I2CInit ienv' (snd (MLX90614I2CInit ienv st)))
                            = RETURN_NUM_MLX90614_INITFAIL
      else driver_installed (snd (MLX90614I2CInit ienv st)) = driver_installed st).
Proof.
  rewrite MLX90614I2CInit_run.
  destruct (param_config_result ienv init_conf =? ESP_OK); cbn [negb andb].
  - destruct (negb (driver_installed st) && (driver_install_result ienv =? ESP_OK));
      cbn [fst snd i2c_trace driver_installed Z.eqb RETURN_NUM_MLX90614_INITSUCCESSFULLY
           RETURN_NUM_MLX90614_INITFAIL Pos.eqb].
    + split; [reflexivity|]. split; [eexists; reflexivity|]. split; [reflexivity|].
      intros ienv'. rewrite MLX90614I2CInit_run. cbn [driver_installed negb andb].
      destruct (negb (param_config_result ienv' init_conf =? ESP_OK)); reflexivity.
    + split; [reflexivity|]. split; [eexists; reflexivity | reflexivity].
  - cbn [fst snd i2c_trace driver_installed Z.eqb RETURN_NUM_MLX90614_INITSUCCESSFULLY
         RETURN_NUM_MLX90614_INITFAIL Pos.eqb].
    split; [reflexivity|]. split; reflexivity.
Qed.

(** * Properties of the entry point *)


(** The earlier contents of the outputs do not matter to a read. *)
Lemma MLX90614ReadTemp_fresh bus o1 o2 :
  fst (MLX90614ReadTemp bus o1) = fst (MLX90614ReadTemp bus o2)
  /\ (fst (MLX90614ReadTemp bus o1) = RETURN_NUM_MLX90614_READSUCCESSFULLY ->
      snd (MLX90614ReadTemp bus o1) = snd (MLX90614ReadTemp bus o2)).
Proof.
  unfold MLX90614ReadTemp.
  destruct (negb (i2c_ret (bus read_temp_cmds) =? ESP_OK));
    [split; [reflexivity | discriminate]|].
  destruct (negb (CalculateCrc8 _ 5 =? rx_third (bus read_temp_cmds)));
    [split; [reflexivity | discriminate]|].
  cbn [fst snd tempcelsius tempfahrenheit]. split; reflexivity.
Qed.

(** ** Growth of the sensor file *)




Lemma ensure_file_run env w :
  exists out t,
    ensure_file env w
    = (tt, {| spi_claimed := spi_claimed w; fat_mounted := fat_mounted w; card := card w;
              files := if negb (can_open env MlxFilePath ModeR w)
                          && can_open env MlxFilePath ModeW w
                       then <[MlxFilePath := EmptyString]> (files w) else files w;
              open_streams := open_streams w; console := console w ++ [out];
              trace := t |}).
Proof.
  unfold ensure_file. unfold bind at 1.
  by_open env MlxFilePath ModeR w.
  - rewrite (FileExists_present _ _ _ Hopen). cbn [negb andb]. unfold printf.
    cbn [spi_claimed fat_mounted card files open_streams console trace].
    eexists _, _. reflexivity.
  - rewrite (FileExists_absent _ _ _ Hopen). cbn [negb andb]. unfold bind at 1.
    match goal with |- context [CreateFile env MlxFilePath ?w1] =>
      assert (Hsame : can_open env MlxFilePath ModeW w1 = can_open env MlxFilePath ModeW w)
        by reflexivity;
      destruct (can_open env MlxFilePath ModeW w1) eqn:Hw;
      [rewrite (CreateFile_done _ _ _ Hw) | rewrite (CreateFile_refused _ _ _ Hw)]
    end; rewrite <- Hsame; unfold printf;
      cbn [spi_claimed fat_mounted card files open_streams console trace];
      eexists _, _; reflexivity.
Qed.






(** ** The log of the polling loop *)

(** One turn on a volume that lets the sensor file be appended to. *)
Lemma poll_logs f env sensor k b content :
  can_open env MlxFilePath ModeA (sd b) = true ->
  files (sd b) !! MlxFilePath = Some content ->
  can_open env MlxFilePath ModeA (sd (poll f env sensor k b)) = true
  /\ files (sd (poll f env sensor k b)) !! MlxFilePath
     = Some (content ++ turn_text f sensor k)%string
  /\ (forall other, other <> MlxFilePath ->
        files (sd (poll f env sensor k b)) !! other = files (sd b) !! other)
  /\ open_streams (sd (poll f env sensor k b)) = open_streams (sd b).
Proof.
  intros Hopen Hfile. unfold poll, turn_text. cbn [sd].
  destruct (MLX90614ReadTemp_fresh (sensor k) (temps b) Sample.out_nan) as [Hcode Hout].
  rewrite <- Hcode. unfold report.
  destruct (Z.eqb_spec (fst (MLX90614ReadTemp (sensor k) (temps b)))
              RETURN_NUM_MLX90614_READSUCCESSFULLY) as [Hok|Hbad].
  - rewrite <- (Hout Hok). unfold bind at 1 2 3 4. rewrite (AppendFile_done _ _ _ _ Hopen).
    cbn [Z.eqb RETURN_NUM_SDCARD_APPENDSUCCESSFULLY Pos.eqb]. unfold printf.
    cbn [snd files open_streams fat_mounted].
    split; [exact Hopen|]. split.
    + unfold appended. rewrite Hfile, lookup_insert_eq. cbn [default].
      rewrite !string_app_assoc. reflexivity.
    + split; [|reflexivity]. intros other Hne. now apply appended_other.
  - unfold printf. cbn [snd files open_streams]. rewrite string_app_nil_r. auto.
Qed.

Lemma poll_from_logs f env sensor turns : forall k b content,
  can_open env MlxFilePath ModeA (sd b) = true ->
  files (sd b) !! MlxFilePath = Some content ->
  files (sd (poll_from f env sensor k turns b)) !! MlxFilePath
  = Some (content ++ turns_text f sensor k turns)%string
  /\ (forall other, other <> MlxFilePath ->
        files (sd (poll_from f env sensor k turns b)) !! other = files (sd b) !! other)
  /\ open_streams (sd (poll_from f env sensor k turns b)) = open_streams (sd b).
Proof.
  induction turns as [|turns IH]; intros k b content Hopen Hfile.
  - cbn [poll_from turns_text]. rewrite string_app_nil_r. auto.
  - cbn [poll_from turns_text].
    destruct (poll_logs f env sensor k b content Hopen Hfile) as (Hopen' & Hfile' & Hrest & Ho).
    destruct (IH (S k) _ _ Hopen' Hfile') as (Hfile'' & Hrest' & Ho').
    rewrite Hfile'', Ho', Ho, string_app_assoc. split; [reflexivity|].
    split; [|reflexivity]. intros other Hne. rewrite Hrest' by exact Hne. now apply Hrest.
Qed.

Lemma transactions_poll_from f env sensor turns : forall k b,
  transactions (i2c (poll_from f env sensor k turns b)) = (transactions (i2c b) + turns)%nat.
Proof.
  induction turns as [|turns IH]; intros k b; cbn [poll_from]; [lia|].
  rewrite IH. unfold poll, transactions. cbn [i2c i2c_trace].
  rewrite List.filter_app, length_app. cbn. lia.
Qed.

Lemma transactions_init ienv st :
  transactions (snd (MLX90614I2CInit ienv st)) = transactions st.
Proof.
  rewrite MLX90614I2CInit_run. unfold transactions.
  destruct (negb (param_config_result ienv init_conf =? ESP_OK));
    [|destruct (negb (driver_installed st) && (driver_install_result ienv =? ESP_OK))];
    cbn [snd i2c_trace]; rewrite List.filter_app, length_app; cbn; lia.
Qed.

(** X21. With the card mounting, the sensor file writable and the I2C
    driver installing, [app_main] after any number of turns has left in
    the sensor file what it held at the start (nothing, when it had to
    create it) followed by one line [celsius=<value>] for each turn whose
    read was accepted, in the order of the turns, and nothing for the
    turns whose read was refused.  It has changed no other file and left
    no stream open. *)
Theorem app_main_logs_accepted_reads
    (sprintf_2f : spec_float -> string) (env : Env) (ienv : I2cEnv)
    (sensor : nat -> list i2c_cmd -> i2c_reply) (turns : nat) (b : Board) :
  spi_claimed (sd b) = false -> fat_mounted (sd b) = false ->
  spi_init_result env = ESP_OK -> mount_result env = ESP_OK ->
  (open_streams (sd b) < MAX_FILES)%nat ->
  writable_at env MlxFilePath = true ->
  fst (MLX90614I2CInit ienv (i2c b)) = RETURN_NUM_MLX90614_INITSUCCESSFULLY ->
  files (sd (app_main sprintf_2f env ienv sensor turns b)) !! MlxFilePath
  = Some (default EmptyString (files (sd b) !! MlxFilePath)
          ++ turns_text sprintf_2f sensor 0 turns)%string
  /\ (forall other, other <> MlxFilePath ->
        files (sd (app_main sprintf_2f env ienv sensor turns b)) !! other
        = files (sd b) !! other)
  /\ open_streams (sd (app_main sprintf_2f env ienv sensor turns b)) = open_streams (sd b).
Proof.
  intros Hfree Hoff Hinit Hmount Hslots Hwritable Hi2c.
  remember (app_main sprintf_2f env ienv sensor turns b) as final eqn:Hfinal.
  unfold app_main in Hfinal.
  rewrite (InitSdCard_bus_ok env (sd b) Hfree Hoff Hinit _ eq_refl), Hmount, Hi2c in Hfinal.
  cbn [Z.eqb ESP_OK fst snd RETURN_NUM_SDCARD_MOUNTSUCCESSFULLY
       RETURN_NUM_MLX90614_INITSUCCESSFULLY Pos.eqb] in Hfinal.
  destruct (LogToSDCard_frame env SDTAG "Initializing SD card..." (sd b))
    as (_ & _ & _ & Ho1 & _ & Hf1).
  set (w1 := snd (LogToSDCard env SDTAG "Initializing SD card..." (sd b))) in *.
  unfold bind at 1, printf at 2 in Hfinal.
  match type of Hfinal with context [ensure_file env ?w2] =>
    destruct (ensure_file_run env w2) as (out & t & Hrun)
  end.
  rewrite Hrun in Hfinal. clear Hrun. unfold printf at 1 in Hfinal.
  cbn [fst snd spi_claimed fat_mounted card files open_streams console trace] in Hfinal.
  assert (Hw : forall t' c', can_open env MlxFilePath ModeW
            {| spi_claimed := true; fat_mounted := true; card := Some (card_handle env);
               files := files w1; open_streams := open_streams w1; console := c';
               trace := t' |} = true).
  { intros t' c'. unfold can_open. cbn [fat_mounted open_streams]. rewrite Ho1, Hwritable.
    apply Nat.ltb_lt in Hslots. rewrite Hslots. reflexivity. }
  rewrite Hw in Hfinal.
  match type of Hfinal with context [poll_from sprintf_2f env sensor 0 turns ?b0] =>
    destruct (poll_from_logs sprintf_2f env sensor turns 0 b0
                (default EmptyString (files (sd b) !! MlxFilePath)))
      as (Hfile & Hrest & Ho)
  end.
  - cbn [sd]. unfold can_open. cbn [fat_mounted open_streams]. rewrite Ho1, Hwritable.
    apply Nat.ltb_lt in Hslots. rewrite Hslots. reflexivity.
  - cbn [sd files]. unfold can_open. cbn [fat_mounted open_streams files].
    rewrite Ho1. apply Nat.ltb_lt in Hslots. rewrite Hslots. cbn [andb].
    rewrite (Hf1 MlxFilePath) by (now left).
    destruct (files (sd b) !! MlxFilePath) as [old|] eqn:Hold.
    + rewrite (bool_decide_eq_true_2 (is_Some (Some old))) by (eexists; reflexivity).
      cbn [negb andb default]. now rewrite Hf1, Hold by (now left).
    + rewrite (bool_decide_eq_false_2 (is_Some None)) by (intros [? ?]; discriminate).
      cbn [negb andb default]. apply lookup_insert_eq.
  - rewrite <- Hfinal in Hfile, Hrest, Ho.
    split; [exact Hfile|]. split; [|etransitivity; [exact Ho | exact Ho1]].
    intros other Hne. etransitivity; [exact (Hrest other Hne)|]. cbn [sd files].
    destruct (negb (can_open env MlxFilePath ModeR _) && true).
    + rewrite lookup_insert_ne by congruence. apply Hf1. now left.
    + apply Hf1. now left.
Qed.

Lemma app_main_logs_accepted_reads_witness :
  files (sd (app_main SampleRest.sprintf_stub Sample.env_ok SampleRest.ienv_ok
               SampleRest.sensor_flaky 3 (SampleRest.board_off ∅))) !! MlxFilePath
  = Some (("celsius=76.31" ++ nl) ++ "celsius=76.31" ++ nl)%string.
Proof.
  destruct (app_main_logs_accepted_reads SampleRest.sprintf_stub Sample.env_ok
              SampleRest.ienv_ok SampleRest.sensor_flaky 3 (SampleRest.board_off ∅))
    as [H _].
  - reflexivity.
  - reflexivity.
  - reflexivity.
  - reflexivity.
  - cbn. unfold MAX_FILES. lia.
  - reflexivity.
  - reflexivity.
  - rewrite H. vm_compute. reflexivity.
Defined.

(** X22. [app_main] polls the sensor only after both initialisations
    reported success: the number of I2C transactions it makes is the
    number of turns when [InitSdCard] returned the mount-success code
    and [MLX90614I2CInit] the init-success code, and none otherwise. *)
Theorem app_main_polls_after_init
    (sprintf_2f : spec_float -> string) (env : Env) (ienv : I2cEnv)
    (sensor : nat -> list i2c_cmd -> i2c_reply) (turns : nat) (b : Board) :
  transactions (i2c (app_main sprintf_2f env ienv sensor turns b))
  = (transactions (i2c b)
     + if (fst (InitSdCard env (sd b)) =? RETURN_NUM_SDCARD_MOUNTSUCCESSFULLY)%Z
          && (fst (MLX90614I2CInit ienv (i2c b)) =? RETURN_NUM_MLX90614_INITSUCCESSFULLY)%Z
       then turns else 0)%nat.
Proof.
  unfold app_main.
  destruct (fst (InitSdCard env (sd b)) =? RETURN_NUM_SDCARD_MOUNTSUCCESSFULLY);
    cbn [andb i2c]; [|lia].
  destruct (fst (MLX90614I2CInit ienv (i2c b)) =? RETURN_NUM_MLX90614_INITSUCCESSFULLY).
  - rewrite transactions_poll_from. cbn [i2c]. now rewrite transactions_init.
  - cbn [i2c]. rewrite transactions_init. lia.
Qed.
